(** * usb-creator, KDE front-end: a shallow embedding of
      [usbcreator/frontends/kde/frontend.py] and the properties of it that the
      specification states.

    The front-end is a Qt object driven by two parties: the backend, which
    calls the registered callbacks, and the user, who clicks and answers
    message boxes.  The embedding keeps the objects the methods read and
    write (tree widgets, timers, the progress dialog, the module-level
    queue) as records and passes them explicitly.  What lies outside the file
    (the backend object, the answers of the user, the files found on disk) is
    an argument of the operation that consults it. *)

From Stdlib Require Import ZArith QArith Qround Ascii String List Lia Sorted
  Permutation.
From stdpp Require Import gmap strings list.

Local Open Scope string_scope.
Local Open Scope Z_scope.

(** ** Python values *)

Module Py.

(** The values that cross the callback boundary or are passed as [img]. *)
Inductive pyval : Type :=
| PyNone
| PyBool (b : bool)
| PyStr (s : string).

(** Truth value of an object, as [if x:] and [not x] compute it. *)
Definition truthy (v : pyval) : bool :=
  match v with
  | PyNone => false
  | PyBool b => b
  | PyStr s => negb (String.eqb s "")
  end.

(** Truth value of a [str]: only the empty string is false. *)
Definition str_truthy (s : string) : bool := negb (String.eqb s "").

(** Truth value of a value that is a [str] or [None]. *)
Definition opt_truthy (o : option string) : bool :=
  match o with
  | None => false
  | Some s => str_truthy s
  end.

(** [misc.text_type] is [str] under Python 3. *)
Definition text_type (v : pyval) : string :=
  match v with
  | PyNone => "None"
  | PyBool true => "True"
  | PyBool false => "False"
  | PyStr s => s
  end.

(** An object is a value at an identity; [is] compares identities. *)
Record pyobj : Type := { obj_id : N; obj_val : pyval }.

(** The singleton [None]. *)
Definition None_ : pyobj := {| obj_id := 0; obj_val := PyNone |}.

(** The object that the literal [''] of [__initUI] evaluates to. *)
Definition empty_str : pyobj := {| obj_id := 1; obj_val := PyStr "" |}.

Definition is_ (a b : pyobj) : bool := (obj_id a =? obj_id b)%N.
Definition is_not (a b : pyobj) : bool := negb (is_ a b).

(** Whitespace as [str.strip()] sees it, for the code points below 256
    (a string of the model holds one code point per character):
    TAB..CR, FS..US, SPACE, NEL and NBSP. *)
Definition isspace (c : ascii) : bool :=
  let n := N_of_ascii c in
  ((9 <=? n) && (n <=? 13) || (28 <=? n) && (n <=? 32)
   || (n =? 133) || (n =? 160))%N.

Fixpoint drop_while {A} (p : A -> bool) (l : list A) : list A :=
  match l with
  | [] => []
  | x :: r => if p x then drop_while p r else l
  end.

Definition lstrip_chars (l : list ascii) : list ascii := drop_while isspace l.
Definition rstrip_chars (l : list ascii) : list ascii :=
  reverse (drop_while isspace (reverse l)).

(** [s.strip()]: leading and trailing whitespace removed. *)
Definition strip (s : string) : string :=
  string_of_list_ascii (rstrip_chars (lstrip_chars (list_ascii_of_string s))).

(** [gettext]'s [_]: no catalogue is modelled, a message is its own
    translation. *)
Definition gettext (s : string) : string := s.

(** Exceptions the modelled code can raise. *)
Inductive exn : Type :=
| KeyError (key : string)
| SystemExit (code : Z)
| BackendError
| OverflowError
| ValueError.

(** A Python number as the backend reports progress: an [int], or a
    [float], which is a rational when finite, an infinity or a NaN.  An
    integer literal of the model stands for the [int]. *)
Inductive pynum : Type :=
| PyInt (z : Z)
| PyFloat (q : Q)
| PyInf (negative : bool)
| PyNaN.
Coercion PyInt : Z >-> pynum.

(** [x > n] and [x == n] for an integer [n]; every comparison with a NaN is
    false. *)
Definition num_gt (x : pynum) (n : Z) : bool :=
  match x with
  | PyInt z => (z >? n)%Z
  | PyFloat q => negb (Qle_bool q (inject_Z n))
  | PyInf negative => negb negative
  | PyNaN => false
  end.

Definition num_eq (x : pynum) (n : Z) : bool :=
  match x with
  | PyInt z => (z =? n)%Z
  | PyFloat q => Qeq_bool q (inject_Z n)
  | PyInf _ => false
  | PyNaN => false
  end.

(** [int(x)]: an [int] is itself, a finite [float] is truncated towards
    zero, an infinity raises [OverflowError] and a NaN [ValueError]. *)
Definition py_int (x : pynum) : exn + Z :=
  match x with
  | PyInt z => inr z
  | PyFloat q => inr (Z.quot (Qnum q) (Z.pos (Qden q)))
  | PyInf _ => inl OverflowError
  | PyNaN => inl ValueError
  end.

(** The range of a C [int], to which the argument of a Qt method declared
    with [int] is converted; outside it the call raises [OverflowError]. *)
Definition fits_c_int (v : Z) : bool :=
  ((-2147483648 <=? v) && (v <=? 2147483647))%Z.

End Py.
Export Py.

(** ** Qt widgets, as far as the front-end uses them *)

Module Qt.

(** [QMessageBox.Yes] and [QMessageBox.No]. *)
Inductive StandardButton : Type := Yes | No.

Definition button_eqb (a b : StandardButton) : bool :=
  match a, b with
  | Yes, Yes | No, No => true
  | _, _ => false
  end.

(** A message box put on the screen. *)
Inductive dialog : Type :=
| Critical (text : string)
| Warning (caption text : string)
| Information (text : string)
| Question (text informative : string).

(** *** QTimer *)
Record QTimer : Type := { interval : Z; active : bool }.

Definition start (ms : Z) : QTimer := {| interval := ms; active := true |}.
Definition stop (t : QTimer) : QTimer :=
  {| interval := interval t; active := false |}.
Definition isActive (t : QTimer) : bool := active t.

(** *** QTreeWidgetItem

    Column 2 shows [misc.format_size n]; [misc] is not part of the file, so
    the item keeps [n] itself ([None] while the column is empty).
    [cell_widget] tells whether a widget was installed in column 0 with
    [setItemWidget] (the front-end never does). *)
Record QTreeWidgetItem : Type := {
  item_id : nat;
  user_data : string;
  text0 : string;
  text1 : string;
  text2 : option Z;
  tooltip0 : string;
  tooltip1 : string;
  tooltip2 : option Z;
  icon : string;
  cell_widget : bool
}.

(** *** QTreeWidget: the top-level items in row order, the current item (by
    identity) and the identity of the next item to be created. *)
Record QTreeWidget : Type := {
  topLevelItems : list QTreeWidgetItem;
  current : option nat;
  next_item : nat
}.

Definition empty_tree : QTreeWidget :=
  {| topLevelItems := []; current := None; next_item := 0%nat |}.

Definition topLevelItemCount (tw : QTreeWidget) : nat :=
  length (topLevelItems tw).

Definition topLevelItem (i : nat) (tw : QTreeWidget) : option QTreeWidgetItem :=
  topLevelItems tw !! i.

Definition item_by_id (u : nat) (l : list QTreeWidgetItem) : option QTreeWidgetItem :=
  List.find (fun it => Nat.eqb (item_id it) u) l.

Definition currentItem (tw : QTreeWidget) : option QTreeWidgetItem :=
  match current tw with
  | None => None
  | Some u => item_by_id u (topLevelItems tw)
  end.

(** [setCurrentItem] as far as the widget goes.  The slots the front-end
    connects to [currentItemChanged] ([source_selection_changed] and
    [dest_selection_changed], below) call into the backend, which is outside
    the file; they are operations of their own here and are not run by a
    change of selection. *)
Definition setCurrentItem (u : nat) (tw : QTreeWidget) : QTreeWidget :=
  {| topLevelItems := topLevelItems tw; current := Some u;
     next_item := next_item tw |}.

(** [QTreeWidgetItem(parent)] followed by [setData(0, Qt.UserRole, d)]: a
    fresh item in the widget.  The model keeps the rows in the order in
    which they were created; the view, with sorting enabled, orders them by
    their first column, so rows are to be spoken of by membership, not by
    position. *)
Definition blank_item (u : nat) (d : string) : QTreeWidgetItem :=
  {| item_id := u; user_data := d; text0 := ""; text1 := ""; text2 := None;
     tooltip0 := ""; tooltip1 := ""; tooltip2 := None; icon := "";
     cell_widget := false |}.

Definition new_item (d : string) (tw : QTreeWidget) : nat * QTreeWidget :=
  (next_item tw,
   {| topLevelItems := topLevelItems tw ++ [blank_item (next_item tw) d];
      current := current tw;
      next_item := S (next_item tw) |}).

(** A setter applied to the item of identity [u]. *)
Definition with_item (u : nat) (f : QTreeWidgetItem -> QTreeWidgetItem)
    (tw : QTreeWidget) : QTreeWidget :=
  {| topLevelItems :=
       List.map (fun it => if Nat.eqb (item_id it) u then f it else it)
                (topLevelItems tw);
     current := current tw;
     next_item := next_item tw |}.

Definition setText0 (s : string) (it : QTreeWidgetItem) : QTreeWidgetItem :=
  {| item_id := item_id it; user_data := user_data it; text0 := s;
     text1 := text1 it; text2 := text2 it; tooltip0 := tooltip0 it;
     tooltip1 := tooltip1 it; tooltip2 := tooltip2 it; icon := icon it;
     cell_widget := cell_widget it |}.

Definition setText1 (s : string) (it : QTreeWidgetItem) : QTreeWidgetItem :=
  {| item_id := item_id it; user_data := user_data it; text0 := text0 it;
     text1 := s; text2 := text2 it; tooltip0 := tooltip0 it;
     tooltip1 := tooltip1 it; tooltip2 := tooltip2 it; icon := icon it;
     cell_widget := cell_widget it |}.

Definition setText2 (n : Z) (it : QTreeWidgetItem) : QTreeWidgetItem :=
  {| item_id := item_id it; user_data := user_data it; text0 := text0 it;
     text1 := text1 it; text2 := Some n; tooltip0 := tooltip0 it;
     tooltip1 := tooltip1 it; tooltip2 := tooltip2 it; icon := icon it;
     cell_widget := cell_widget it |}.

(** [it.setToolTip(c, it.text(c))] for the three columns. *)
Definition setToolTip0 (it : QTreeWidgetItem) : QTreeWidgetItem :=
  {| item_id := item_id it; user_data := user_data it; text0 := text0 it;
     text1 := text1 it; text2 := text2 it; tooltip0 := text0 it;
     tooltip1 := tooltip1 it; tooltip2 := tooltip2 it; icon := icon it;
     cell_widget := cell_widget it |}.

Definition setToolTip1 (it : QTreeWidgetItem) : QTreeWidgetItem :=
  {| item_id := item_id it; user_data := user_data it; text0 := text0 it;
     text1 := text1 it; text2 := text2 it; tooltip0 := tooltip0 it;
     tooltip1 := text1 it; tooltip2 := tooltip2 it; icon := icon it;
     cell_widget := cell_widget it |}.

Definition setToolTip2 (it : QTreeWidgetItem) : QTreeWidgetItem :=
  {| item_id := item_id it; user_data := user_data it; text0 := text0 it;
     text1 := text1 it; text2 := text2 it; tooltip0 := tooltip0 it;
     tooltip1 := tooltip1 it; tooltip2 := text2 it; icon := icon it;
     cell_widget := cell_widget it |}.

Definition setIcon (s : string) (it : QTreeWidgetItem) : QTreeWidgetItem :=
  {| item_id := item_id it; user_data := user_data it; text0 := text0 it;
     text1 := text1 it; text2 := text2 it; tooltip0 := tooltip0 it;
     tooltip1 := tooltip1 it; tooltip2 := tooltip2 it; icon := s;
     cell_widget := cell_widget it |}.

(** [QTreeWidget.removeItemWidget(item, 0)] removes the widget shown in the
    cell; the item stays in the tree. *)
Definition removeItemWidget (u : nat) (tw : QTreeWidget) : QTreeWidget :=
  with_item u
    (fun it =>
       {| item_id := item_id it; user_data := user_data it;
          text0 := text0 it; text1 := text1 it; text2 := text2 it;
          tooltip0 := tooltip0 it; tooltip1 := tooltip1 it;
          tooltip2 := tooltip2 it; icon := icon it; cell_widget := false |})
    tw.

(** The rows of [l] without row [i]. *)
Fixpoint remove_row (i : nat) (l : list QTreeWidgetItem) : list QTreeWidgetItem :=
  match l, i with
  | [], _ => []
  | _ :: r, O => r
  | x :: r, S j => x :: remove_row j r
  end.

(** [QTreeWidget.takeTopLevelItem(i)] removes row [i].  When the row taken
    is the current one the view moves the current item to the row below,
    else to the row above, else there is none. *)
Definition takeTopLevelItem (i : nat) (tw : QTreeWidget) : QTreeWidget :=
  let l := topLevelItems tw in
  let cur :=
    match l !! i, current tw with
    | Some it, Some u =>
        if Nat.eqb (item_id it) u then
          match l !! S i with
          | Some below => Some (item_id below)
          | None =>
              match i with
              | O => None
              | S j => option_map item_id (l !! j)
              end
          end
        else Some u
    | _, c => c
    end in
  {| topLevelItems := remove_row i l; current := cur;
     next_item := next_item tw |}.

(** *** QProgressDialog: [pd_value] is the value of its bar, which starts
    reset, one below the minimum.  [setValue] sets it; the bar ignores a
    value outside its range. *)
Record QProgressDialog : Type := {
  pd_hidden : bool;
  pd_value : Z;
  pd_labelText : string;
  pd_minimum : Z;
  pd_maximum : Z
}.

Definition pd_setValue (v : Z) (p : QProgressDialog) : QProgressDialog :=
  if (pd_minimum p <=? v) && (v <=? pd_maximum p) then
    {| pd_hidden := pd_hidden p; pd_value := v; pd_labelText := pd_labelText p;
       pd_minimum := pd_minimum p; pd_maximum := pd_maximum p |}
  else p.

Definition pd_setLabelText (s : string) (p : QProgressDialog) : QProgressDialog :=
  {| pd_hidden := pd_hidden p; pd_value := pd_value p; pd_labelText := s;
     pd_minimum := pd_minimum p; pd_maximum := pd_maximum p |}.

Definition pd_set_hidden (b : bool) (p : QProgressDialog) : QProgressDialog :=
  {| pd_hidden := b; pd_value := pd_value p; pd_labelText := pd_labelText p;
     pd_minimum := pd_minimum p; pd_maximum := pd_maximum p |}.

Definition pd_hide := pd_set_hidden true.
Definition pd_show := pd_set_hidden false.
Definition isHidden (p : QProgressDialog) : bool := pd_hidden p.

End Qt.
Export Qt.

(** ** The backend, as the front-end sees it

    The backend is not part of the file.  The front-end reads its two
    mappings and its current source, and calls its operations; the model
    keeps the mappings and the log of the calls made. *)

(** Modelled from the spec: the enumerations of [misc] ([misc.SOURCE_IMG],
    [misc.CAN_USE], [misc.CANNOT_USE]) are missing from the sources; the
    data model of the specification lists their members. *)
Inductive source_type : Type := SOURCE_IMG | SOURCE_ISO | SOURCE_DEVICE.
Inductive target_status : Type := UNKNOWN | CAN_USE | CANNOT_USE.

Definition source_type_eqb (a b : source_type) : bool :=
  match a, b with
  | SOURCE_IMG, SOURCE_IMG | SOURCE_ISO, SOURCE_ISO
  | SOURCE_DEVICE, SOURCE_DEVICE => true
  | _, _ => false
  end.

Definition target_status_eqb (a b : target_status) : bool :=
  match a, b with
  | UNKNOWN, UNKNOWN | CAN_USE, CAN_USE | CANNOT_USE, CANNOT_USE => true
  | _, _ => false
  end.

(** An entry of [backend.sources]. *)
Record Source : Type := {
  src_device : string;
  src_label : string;
  src_size : Z;
  src_type : source_type
}.

(** An entry of [backend.targets]. *)
Record Target : Type := {
  tgt_vendor : string;
  tgt_model : string;
  tgt_device : string;
  tgt_label : string;
  tgt_capacity : Z;
  tgt_status : target_status
}.

Inductive backend_call : Type :=
| Add_image (path : string)
| Detect_devices
| Update_free
| Set_current_source (udi : option string)
| Install (source target : string) (allow_system_internal : bool)
| Cancel_install
| Shutdown.

Record Backend : Type := {
  sources : gmap string Source;
  targets : gmap string Target;
  current_source : option string;
  calls : list backend_call
}.

Definition get_current_source (b : Backend) : option string := current_source b.

Definition call (c : backend_call) (b : Backend) : Backend :=
  {| sources := sources b; targets := targets b;
     current_source := current_source b; calls := calls b ++ [c] |}.

(** The paths handed to [backend.add_image] so far. *)
Definition added_images (b : Backend) : list string :=
  omap (fun c => match c with Add_image p => Some p | _ => None end) (calls b).

(** The [backend.install] calls made so far. *)
Definition installs (b : Backend) : list backend_call :=
  List.filter (fun c => match c with Install _ _ _ => true | _ => false end)
              (calls b).

(** ** The module-level queue and the closures put into it *)

(** The closure that [wrap] builds around [func] and its arguments, for the
    five methods that carry [@thread_wrap]: the method and the arguments it
    was called with. *)
Inductive closure : Type :=
| call_progress (complete : pynum)
| call_progress_message (message : string)
| call_failure (message : option string)
| call_success
| call_retry (message : string).

(** [queue.Queue]: the items in arrival order and the count of unfinished
    tasks. *)
Record Queue : Type := { items : list closure; unfinished_tasks : nat }.

Definition Queue_new : Queue := {| items := []; unfinished_tasks := 0%nat |}.

Definition put (c : closure) (q : Queue) : Queue :=
  {| items := items q ++ [c]; unfinished_tasks := S (unfinished_tasks q) |}.

Definition empty (q : Queue) : bool :=
  match items q with [] => true | _ => false end.

Definition get_nowait (q : Queue) : option (closure * Queue) :=
  match items q with
  | [] => None
  | c :: r => Some (c, {| items := r; unfinished_tasks := unfinished_tasks q |})
  end.

Definition task_done (q : Queue) : Queue :=
  {| items := items q; unfinished_tasks := Nat.pred (unfinished_tasks q) |}.

(** ** The state of the program *)

(** The widgets of the main window ([usbcreator-kde.ui]) the code touches. *)
Record MainWindow : Type := {
  window_hidden : bool;
  ui_source_list : QTreeWidget;
  ui_source_list_hidden : bool;
  ui_dest_list : QTreeWidget;
  ui_add_source_hidden : bool;
  source_label_hidden : bool;
  ui_start_button_enabled : bool;
  ui_dest_status : string
}.

(** The [KdeFrontend] object, the module-level [queue] and the message boxes
    shown so far. *)
Record state : Type := {
  queue : Queue;
  dialogs : list dialog;
  img : pyobj;
  allow_system_internal : bool;
  mainWindow : MainWindow;
  progress_bar : QProgressDialog;
  recently_added_image : option string;
  backend : Backend;
  queue_processor : QTimer;
  update_loop : QTimer
}.

Definition set_queue (q : Queue) (w : state) : state :=
  {| queue := q; dialogs := dialogs w; img := img w;
     allow_system_internal := allow_system_internal w;
     mainWindow := mainWindow w; progress_bar := progress_bar w;
     recently_added_image := recently_added_image w; backend := backend w;
     queue_processor := queue_processor w; update_loop := update_loop w |}.

Definition show_dialog (d : dialog) (w : state) : state :=
  {| queue := queue w; dialogs := dialogs w ++ [d]; img := img w;
     allow_system_internal := allow_system_internal w;
     mainWindow := mainWindow w; progress_bar := progress_bar w;
     recently_added_image := recently_added_image w; backend := backend w;
     queue_processor := queue_processor w; update_loop := update_loop w |}.

Definition set_mainWindow (m : MainWindow) (w : state) : state :=
  {| queue := queue w; dialogs := dialogs w; img := img w;
     allow_system_internal := allow_system_internal w;
     mainWindow := m; progress_bar := progress_bar w;
     recently_added_image := recently_added_image w; backend := backend w;
     queue_processor := queue_processor w; update_loop := update_loop w |}.

Definition set_progress_bar (p : QProgressDialog) (w : state) : state :=
  {| queue := queue w; dialogs := dialogs w; img := img w;
     allow_system_internal := allow_system_internal w;
     mainWindow := mainWindow w; progress_bar := p;
     recently_added_image := recently_added_image w; backend := backend w;
     queue_processor := queue_processor w; update_loop := update_loop w |}.

Definition set_recently_added_image (r : option string) (w : state) : state :=
  {| queue := queue w; dialogs := dialogs w; img := img w;
     allow_system_internal := allow_system_internal w;
     mainWindow := mainWindow w; progress_bar := progress_bar w;
     recently_added_image := r; backend := backend w;
     queue_processor := queue_processor w; update_loop := update_loop w |}.

Definition set_backend (b : Backend) (w : state) : state :=
  {| queue := queue w; dialogs := dialogs w; img := img w;
     allow_system_internal := allow_system_internal w;
     mainWindow := mainWindow w; progress_bar := progress_bar w;
     recently_added_image := recently_added_image w; backend := b;
     queue_processor := queue_processor w; update_loop := update_loop w |}.

Definition set_queue_processor (t : QTimer) (w : state) : state :=
  {| queue := queue w; dialogs := dialogs w; img := img w;
     allow_system_internal := allow_system_internal w;
     mainWindow := mainWindow w; progress_bar := progress_bar w;
     recently_added_image := recently_added_image w; backend := backend w;
     queue_processor := t; update_loop := update_loop w |}.

Definition set_update_loop (t : QTimer) (w : state) : state :=
  {| queue := queue w; dialogs := dialogs w; img := img w;
     allow_system_internal := allow_system_internal w;
     mainWindow := mainWindow w; progress_bar := progress_bar w;
     recently_added_image := recently_added_image w; backend := backend w;
     queue_processor := queue_processor w; update_loop := t |}.

Definition set_ui_source_list (t : QTreeWidget) (m : MainWindow) : MainWindow :=
  {| window_hidden := window_hidden m; ui_source_list := t;
     ui_source_list_hidden := ui_source_list_hidden m;
     ui_dest_list := ui_dest_list m;
     ui_add_source_hidden := ui_add_source_hidden m;
     source_label_hidden := source_label_hidden m;
     ui_start_button_enabled := ui_start_button_enabled m;
     ui_dest_status := ui_dest_status m |}.

Definition set_ui_dest_list (t : QTreeWidget) (m : MainWindow) : MainWindow :=
  {| window_hidden := window_hidden m; ui_source_list := ui_source_list m;
     ui_source_list_hidden := ui_source_list_hidden m;
     ui_dest_list := t;
     ui_add_source_hidden := ui_add_source_hidden m;
     source_label_hidden := source_label_hidden m;
     ui_start_button_enabled := ui_start_button_enabled m;
     ui_dest_status := ui_dest_status m |}.

Definition setEnabled (b : bool) (m : MainWindow) : MainWindow :=
  {| window_hidden := window_hidden m; ui_source_list := ui_source_list m;
     ui_source_list_hidden := ui_source_list_hidden m;
     ui_dest_list := ui_dest_list m;
     ui_add_source_hidden := ui_add_source_hidden m;
     source_label_hidden := source_label_hidden m;
     ui_start_button_enabled := b;
     ui_dest_status := ui_dest_status m |}.

Definition set_ui_dest_status (s : string) (m : MainWindow) : MainWindow :=
  {| window_hidden := window_hidden m; ui_source_list := ui_source_list m;
     ui_source_list_hidden := ui_source_list_hidden m;
     ui_dest_list := ui_dest_list m;
     ui_add_source_hidden := ui_add_source_hidden m;
     source_label_hidden := source_label_hidden m;
     ui_start_button_enabled := ui_start_button_enabled m;
     ui_dest_status := s |}.

Definition set_window_hidden (b : bool) (m : MainWindow) : MainWindow :=
  {| window_hidden := b; ui_source_list := ui_source_list m;
     ui_source_list_hidden := ui_source_list_hidden m;
     ui_dest_list := ui_dest_list m;
     ui_add_source_hidden := ui_add_source_hidden m;
     source_label_hidden := source_label_hidden m;
     ui_start_button_enabled := ui_start_button_enabled m;
     ui_dest_status := ui_dest_status m |}.

(** Shorthands for the two lists of the running program. *)
Definition source_list (w : state) : QTreeWidget := ui_source_list (mainWindow w).
Definition dest_list (w : state) : QTreeWidget := ui_dest_list (mainWindow w).

Definition on_source_list (f : QTreeWidget -> QTreeWidget) (w : state) : state :=
  set_mainWindow (set_ui_source_list (f (source_list w)) (mainWindow w)) w.
Definition on_dest_list (f : QTreeWidget -> QTreeWidget) (w : state) : state :=
  set_mainWindow (set_ui_dest_list (f (dest_list w)) (mainWindow w)) w.
Definition on_progress_bar (f : QProgressDialog -> QProgressDialog) (w : state) : state :=
  set_progress_bar (f (progress_bar w)) w.
Definition on_backend (f : Backend -> Backend) (w : state) : state :=
  set_backend (f (backend w)) w.

(** ** Results of a method: a value, or an exception, with the state left *)

Inductive outcome (A : Type) : Type :=
| Return (a : A) (w : state)
| Raise (e : exn) (w : state).
Arguments Return {A} a w.
Arguments Raise {A} e w.

Definition state_of {A} (o : outcome A) : state :=
  match o with
  | Return _ w => w
  | Raise _ w => w
  end.

(** A method body: a function of the state to an outcome. *)
Definition M (A : Type) : Type := state -> outcome A.

Definition ret {A} (a : A) : M A := fun w => Return a w.
Definition raise {A} (e : exn) : M A := fun w => Raise e w.

(** The exception an outcome carries, if any. *)
Definition raised {A} (o : outcome A) : option exn :=
  match o with
  | Return _ _ => None
  | Raise e _ => Some e
  end.

Definition bind {A B} (m : M A) (k : A -> M B) : M B :=
  fun w =>
    match m w with
    | Return a w' => k a w'
    | Raise e w' => Raise e w'
    end.

(** A step that only changes the state. *)
Definition modify (f : state -> state) : M unit := fun w => Return tt (f w).

Notation "'do' x <- m ; k" := (bind m (fun x => k))
  (at level 10, x name, m at level 100, k at level 200).
Notation "m ;; k" := (bind m (fun _ => k))
  (at level 100, k at level 200, right associativity).

(** [d[key]] on a mapping of the backend. *)
Definition getitem {V} (d : gmap string V) (key : string) : M V :=
  match d !! key with
  | Some v => ret v
  | None => raise (KeyError key)
  end.

(** ** The methods of [KdeFrontend] *)

(** [__fail]: the progress dialog goes away, an error box is shown and the
    process exits with status 1. *)
Definition __fail (message : option string) : M unit :=
  modify (on_progress_bar pd_hide) ;;
  let message :=
    match message with
    | Some m => if str_truthy m then m else gettext "Installation failed."
    | None => gettext "Installation failed."
    end in
  modify (show_dialog (Critical message)) ;;
  raise (SystemExit 1).

(** [__timeout_callback] for the timer [timer] connected to [func]: the timer
    is stopped when [func] answers a false value. *)
Definition __timeout_callback (timer : state -> QTimer)
    (set_timer : QTimer -> state -> state) (func : M pyval) : M unit :=
  do active_ <- func;
  if truthy active_ then ret tt
  else modify (fun w => set_timer (stop (timer w)) w).

(** [add_timeout]: a new timer, started. *)
Definition add_timeout (interval : Z) : QTimer := start interval.

(** [delete_timeout]: the answer and the timer afterwards. *)
Definition delete_timeout (timer : QTimer) : bool * QTimer :=
  if isActive timer then (false, timer)
  else (true, stop timer).

(** [for i in range(0, count): item = topLevelItem(i); if p(item): ...; break]:
    the first row whose item satisfies [p], with the item. *)
Fixpoint first_row (p : QTreeWidgetItem -> bool) (l : list QTreeWidgetItem)
    : option (nat * QTreeWidgetItem) :=
  match l with
  | [] => None
  | it :: r =>
      if p it then Some (O, it)
      else match first_row p r with
           | Some (i, item) => Some (S i, item)
           | None => None
           end
  end.

(** [item = w.currentItem(); if not item: item = w.topLevelItem(0);
    if item: w.setCurrentItem(item, True)], where the call is made. *)
Definition select_first_if_none (tw : QTreeWidget) : QTreeWidget :=
  match currentItem tw with
  | Some _ => tw
  | None =>
      match topLevelItem 0 tw with
      | Some item => setCurrentItem (item_id item) tw
      | None => tw
      end
  end.

Definition pretty_name (dev : Target) : string :=
  tgt_vendor dev +:+ " " +:+ tgt_model dev +:+ " (" +:+ tgt_device dev +:+ ")".

Definition add_target (target : string) : M unit :=
  fun w =>
    let (new, tw) := new_item target (dest_list w) in
    let tw :=
      with_item new
        (fun it => setIcon "drive-removable-media-usb-pendrive" (setText0 target it))
        tw in
    let tw := select_first_if_none tw in
    (do dev <- getitem (targets (backend w)) target;
     modify (on_dest_list (with_item new
       (fun it =>
          setToolTip2 (setText2 (tgt_capacity dev)
            (setToolTip1 (setText1 (tgt_label dev)
              (setToolTip0 (setText0 (pretty_name dev) it))))))))
    ) (on_dest_list (fun _ => tw) w).

Definition remove_target (target : string) : M unit :=
  modify (fun w =>
    match first_row (fun item => String.eqb (user_data item) target)
                    (topLevelItems (dest_list w)) with
    | Some (i, _) => on_dest_list (takeTopLevelItem i) w
    | None => w
    end) ;;
  modify (on_dest_list select_first_if_none).

Definition add_source (source : string) : M unit :=
  fun w =>
    let (new, tw) := new_item source (source_list w) in
    let tw :=
      with_item new (fun it => setIcon "media-optical" (setText0 source it)) tw in
    let tw := select_first_if_none tw in
    (do info <- getitem (sources (backend w)) source;
     modify (on_source_list (with_item new
       (fun it =>
          setToolTip2 (setText2 (src_size info)
            (setToolTip1 (setText1 (strip (src_label info))
              (setToolTip0 (setText0 (src_device info) it)))))))) ;;
     fun w' =>
       match recently_added_image w' with
       | Some recent =>
           if String.eqb (src_device info) recent then
             Return tt
               (set_recently_added_image None
                  (on_source_list (setCurrentItem new) w'))
           else Return tt w'
       | None => Return tt w'
       end
    ) (on_source_list (fun _ => tw) w).

Definition remove_source (source : string) : M unit :=
  modify (fun w =>
    match first_row (fun item => String.eqb (user_data item) source)
                    (topLevelItems (source_list w)) with
    | Some (_, item) => on_source_list (removeItemWidget (item_id item)) w
    | None => w
    end) ;;
  modify (on_source_list select_first_if_none).

(** [get_source] and [get_target]: the data of the current item, or ['']. *)
Definition get_source (w : state) : string :=
  match currentItem (source_list w) with
  | Some item => user_data item
  | None => ""
  end.

Definition get_target (w : state) : string :=
  match currentItem (dest_list w) with
  | Some item => user_data item
  | None => ""
  end.

(** [update_target].  The loop finds the row of [udi] and emits
    [itemChanged] for it; no slot of the file is connected to that signal,
    so the loop leaves the state as it is. *)
Definition update_target (udi : string) : M unit :=
  do target <- (fun w => getitem (targets (backend w)) udi w);
  let status := tgt_status target in
  do source <- (fun w => Return (get_current_source (backend w)) w);
  match source with
  | None => ret tt
  | Some source =>
      if negb (str_truthy source) then ret tt
      else
        do info <- (fun w => getitem (sources (backend w)) source w);
        let stype := src_type info in
        modify (fun w =>
          if target_status_eqb status CAN_USE
             || (ui_start_button_enabled (mainWindow w)
                 && source_type_eqb stype SOURCE_IMG)
          then set_mainWindow (setEnabled true (mainWindow w)) w
          else set_mainWindow (setEnabled false (mainWindow w)) w) ;;
        let msg :=
          if target_status_eqb status CANNOT_USE
          then gettext "The device is not large enough to hold this image."
          else "" in
        modify (fun w => set_mainWindow (set_ui_dest_status msg (mainWindow w)) w)
  end.

(** Slot of [ui_dest_list.currentItemChanged]. *)
Definition dest_selection_changed (current_item : option QTreeWidgetItem) : M unit :=
  match current_item with
  | None => ret tt
  | Some item => update_target (user_data item)
  end.

(** Slot of [ui_source_list.currentItemChanged]. *)
Definition source_selection_changed (current_item : option QTreeWidgetItem) : M unit :=
  let udi := option_map user_data current_item in
  modify (on_backend (fun b =>
    call (Set_current_source udi)
      {| sources := sources b; targets := targets b;
         current_source := udi; calls := calls b |})) ;;
  fun w => dest_selection_changed (currentItem (dest_list w)) w.

(** [add_file_source_dialog]; [filename] is the file chosen in the file
    dialog, [''] when the dialog was cancelled. *)
Definition add_file_source_dialog (filename : string) : M unit :=
  modify (set_recently_added_image None) ;;
  if negb (str_truthy filename) then ret tt
  else
    fun w =>
      match first_row (fun item => String.eqb (text0 item) filename)
                      (topLevelItems (source_list w)) with
      | Some (_, item) =>
          Return tt (on_source_list (setCurrentItem (item_id item)) w)
      | None =>
          Return tt
            (on_backend (call (Add_image filename))
               (set_recently_added_image (Some filename) w))
      end.

Definition notify (title : string) : M unit :=
  modify (show_dialog (Warning "" title)).

(** [install]; [res] is the button the user presses in the confirmation
    box, [fault] the exception [backend.install] raises, if any. *)
Definition install (res : StandardButton) (fault : option exn) : M unit :=
  fun w =>
    let source := get_source w in
    let target := get_target w in
    if str_truthy source && str_truthy target then
      (modify (show_dialog
         (Question
            (gettext "Are you sure you want to write the disc image to the device?")
            (gettext "All existing data will be lost."))) ;;
       if negb (button_eqb res Yes) then ret tt
       else
         modify (fun w => set_mainWindow (set_window_hidden true (mainWindow w)) w) ;;
         modify (fun w => set_update_loop (snd (delete_timeout (update_loop w))) w) ;;
         let starting_up := gettext "Starting up" in
         modify (on_progress_bar (pd_setLabelText starting_up)) ;;
         modify (on_progress_bar pd_show) ;;
         modify (fun w =>
           on_backend (call (Install source target (allow_system_internal w))) w) ;;
         match fault with
         | None => ret tt
         | Some _ => __fail None
         end) w
    else
      let message :=
        gettext "You must select both source image and target device first." in
      notify message w.

(** [quit]. *)
Definition quit : M unit :=
  modify (on_backend (call Cancel_install)) ;;
  raise (SystemExit 0).

(** [warning_dialog]; [res] is the user's answer. *)
Definition warning_dialog (res : StandardButton) : M unit :=
  modify (on_progress_bar pd_hide) ;;
  modify (show_dialog
    (Warning (gettext "Quit the installation?")
             (gettext "Do you really want to quit the installation now?"))) ;;
  (if button_eqb res Yes then quit else ret tt) ;;
  modify (on_progress_bar pd_show).

(** ** Methods called from the backend thread *)

(** The functions that carry [@thread_wrap], as written in the class body. *)
Module Body.

Definition progress (complete : pynum) : M pyval :=
  fun w =>
    if negb (isHidden (progress_bar w)) then
      let complete := if num_gt complete 100 then PyInt 100 else complete in
      match py_int complete with
      | inl e => Raise e w
      | inr value =>
          if fits_c_int value then
            (modify (on_progress_bar (pd_setValue value)) ;;
             (if num_eq complete 100
              then modify (on_progress_bar (pd_setLabelText (gettext "Finishing...")))
              else ret tt) ;;
             ret PyNone) w
          else Raise OverflowError w
      end
    else Return PyNone w.

Definition progress_message (message : string) : M pyval :=
  modify (on_progress_bar (pd_setLabelText message)) ;;
  ret PyNone.

Definition failure (message : option string) : M pyval :=
  __fail message ;;
  ret PyNone.

Definition success : M pyval :=
  modify (on_progress_bar pd_hide) ;;
  let text :=
    gettext ("The installation is complete.  You may now reboot your "
             +:+ "computer with this device inserted to try or install "
             +:+ "Ubuntu.") in
  modify (show_dialog (Information text)) ;;
  modify (on_backend (call Shutdown)) ;;
  raise (SystemExit 0).

(** [res] is the button the user presses in the retry box. *)
Definition retry (res : StandardButton) (message : string) : M pyval :=
  let caption := gettext "Retry?" in
  modify (show_dialog (Warning caption message)) ;;
  ret (PyBool (button_eqb res Yes)).

End Body.

(** Calling a closure taken from the queue: [func()]. *)
Definition apply_closure (res : StandardButton) (func : closure) : M pyval :=
  match func with
  | call_progress complete => Body.progress complete
  | call_progress_message message => Body.progress_message message
  | call_failure message => Body.failure message
  | call_success => Body.success
  | call_retry message => Body.retry res message
  end.

(** [thread_wrap(func)]: the function [wrap], which puts the closure into the
    queue and, having no [return], answers [None]. *)
Definition thread_wrap {A} (func : A -> closure) : A -> M pyval :=
  fun args =>
    modify (fun w => set_queue (put (func args) (queue w)) w) ;;
    ret PyNone.

(** The five decorated methods, as the backend gets them as callbacks. *)
Definition progress : pynum -> M pyval := thread_wrap call_progress.
Definition progress_message : string -> M pyval := thread_wrap call_progress_message.
Definition failure : option string -> M pyval := thread_wrap call_failure.
Definition success : unit -> M pyval := thread_wrap (fun _ => call_success).
Definition retry : string -> M pyval := thread_wrap call_retry.

(** [test_func], the function the queue processor runs; [res] is what the
    user answers should the closure ask. *)
Definition test_func (res : StandardButton) : M pyval :=
  fun w =>
    if negb (empty (queue w)) then
      match get_nowait (queue w) with
      | Some (func, q) =>
          (apply_closure res func ;;
           modify (fun w => set_queue (task_done (queue w)) w) ;;
           ret (PyBool true)) (set_queue q w)
      | None => Return (PyBool true) w
      end
    else Return (PyBool true) w.

(** The slots of the two timers; a stopped timer does not fire. *)
Definition queue_processor_timeout (res : StandardButton) : M unit :=
  fun w =>
    if isActive (queue_processor w)
    then __timeout_callback queue_processor set_queue_processor (test_func res) w
    else Return tt w.

(** [answer] is what [backend.update_free] returns. *)
Definition update_loop_timeout (answer : pyval) : M unit :=
  fun w =>
    if isActive (update_loop w)
    then __timeout_callback update_loop set_update_loop
           (modify (on_backend (call Update_free)) ;; ret answer) w
    else Return tt w.

(** ** Construction *)

(** Modelled from the spec: [usbcreator-kde.ui] is missing from the sources;
    the window it describes is taken with empty lists and with every widget
    in Qt's default state (not hidden, enabled, no text).  The window itself
    is hidden until [show]. *)
Definition loadUi : MainWindow :=
  {| window_hidden := true;
     ui_source_list := empty_tree; ui_source_list_hidden := false;
     ui_dest_list := empty_tree;
     ui_add_source_hidden := false; source_label_hidden := false;
     ui_start_button_enabled := true; ui_dest_status := "" |}.

Definition hide_sources (m : MainWindow) : MainWindow :=
  {| window_hidden := window_hidden m; ui_source_list := ui_source_list m;
     ui_source_list_hidden := true;
     ui_dest_list := ui_dest_list m;
     ui_add_source_hidden := true;
     source_label_hidden := true;
     ui_start_button_enabled := ui_start_button_enabled m;
     ui_dest_status := ui_dest_status m |}.

(** [__initUI]: the main window and the progress dialog it builds. *)
Definition __initUI (img : pyobj) : MainWindow * QProgressDialog :=
  let m := loadUi in
  let m := if is_not img empty_str then hide_sources m else m in
  let m := setEnabled false m in
  let progress_bar :=
    {| pd_hidden := true; pd_value := -1; pd_labelText := "";
       pd_minimum := 0; pd_maximum := 100 |} in
  (set_window_hidden false m, progress_bar).

(** [__init__]; [isos] are the [*.iso] files found in the download
    directory.  The module-level queue is the one created at import. *)
Definition __init__ (backend : Backend) (img : pyobj)
    (allow_system_internal : bool) (isos : list string) : state :=
  let (m, p) := __initUI img in
  let backend :=
    if is_not img None_ then call (Add_image (text_type (obj_val img))) backend
    else backend in
  let backend := fold_left (fun b iso => call (Add_image iso) b) isos backend in
  let queue_processor := add_timeout 500 in
  let backend := call Detect_devices backend in
  let update_loop := add_timeout 2000 in
  {| queue := Queue_new; dialogs := []; img := img;
     allow_system_internal := allow_system_internal;
     mainWindow := m; progress_bar := p;
     recently_added_image := None; backend := backend;
     queue_processor := queue_processor; update_loop := update_loop |}.

(** The defaults of the constructor's signature. *)
Definition default_img : pyobj := None_.
Definition default_allow_system_internal : bool := false.

(** ** Runs of the producer and the consumer *)

(** What happens to the queue: the backend thread calls one of the five
    callbacks, or the queue processor's timer fires. *)
Inductive action : Type :=
| Backend_calls (c : closure)
| Timer_fires (res : StandardButton).

(** The call of the backend that publishes [c]. *)
Definition callback (c : closure) : M pyval :=
  match c with
  | call_progress complete => progress complete
  | call_progress_message message => progress_message message
  | call_failure message => failure message
  | call_success => success tt
  | call_retry message => retry message
  end.

(** The closure a firing of the queue processor executes, if any. *)
Definition executed_by_timer (w : state) : list closure :=
  if isActive (queue_processor w) then
    match items (queue w) with
    | c :: _ => [c]
    | [] => []
    end
  else [].

(** A run: the closures published, the closures executed, both in order of
    occurrence, and how the run ended.  An exception leaving a slot ends the
    process and with it the run. *)
Fixpoint run (acts : list action) (w : state)
    : list closure * list closure * outcome unit :=
  match acts with
  | [] => ([], [], Return tt w)
  | Backend_calls c :: rest =>
      let '(p, e, o) := run rest (state_of (callback c w)) in
      (c :: p, e, o)
  | Timer_fires res :: rest =>
      match queue_processor_timeout res w with
      | Return _ w' =>
          let '(p, e, o) := run rest w' in
          (p, (executed_by_timer w ++ e)%list, o)
      | Raise ex w' => ([], executed_by_timer w, Raise ex w')
      end
  end.

Definition executed (acts : list action) (w : state) : list closure :=
  snd (fst (run acts w)).
Definition final (acts : list action) (w : state) : outcome unit :=
  snd (run acts w).



(** The exceptions with which a queued method can end. *)
Definition ends_process (e : exn) : Prop :=
  (exists code, e = SystemExit code) \/ e = OverflowError \/ e = ValueError.

(** ** Sequences of list events *)

(** The four callbacks by which the backend announces sources and targets. *)
Inductive list_event : Type :=
| Source_added (id : string)
| Source_removed (id : string)
| Target_added (id : string)
| Target_removed (id : string).

Definition deliver (ev : list_event) : M unit :=
  match ev with
  | Source_added id => add_source id
  | Source_removed id => remove_source id
  | Target_added id => add_target id
  | Target_removed id => remove_target id
  end.

(** The state after the callbacks of [evs] have run, one after the other
    (a callback that raises leaves the state it had reached). *)
Definition deliver_all (evs : list list_event) (w : state) : state :=
  fold_left (fun w ev => state_of (deliver ev w)) evs w.

(** The ids shown in the two lists, in row order. *)
Definition source_ids (w : state) : list string :=
  List.map user_data (topLevelItems (source_list w)).
Definition target_ids (w : state) : list string :=
  List.map user_data (topLevelItems (dest_list w)).

(** Every [Target_added] of [evs] announces an id the destinations list
    does not show at that moment. *)
Fixpoint targets_added_fresh (evs : list list_event) (w : state) : Prop :=
  match evs with
  | [] => True
  | ev :: rest =>
      match ev with
      | Target_added id => ~ In id (target_ids w)
      | _ => True
      end /\ targets_added_fresh rest (state_of (deliver ev w))
  end.

(** The value of a finite number, as a rational. *)
Definition num_Q (x : pynum) : option Q :=
  match x with
  | PyInt z => Some (inject_Z z)
  | PyFloat q => Some q
  | PyInf _ => None
  | PyNaN => None
  end.

(** A finite number that is not negative; the order of finite numbers. *)
Definition nonneg (x : pynum) : Prop :=
  match num_Q x with
  | Some q => (0 <= q)%Q
  | None => False
  end.

Definition num_le (x y : pynum) : Prop :=
  match num_Q x, num_Q y with
  | Some a, Some b => (a <= b)%Q
  | _, _ => False
  end.

(** The integer part of a finite number, capped at 100. *)
Definition capped (x : pynum) : Z :=
  match py_int x with
  | inr v => Z.min v 100
  | inl _ => 100
  end.

(** The values shown by the progress dialog after each of the calls
    [progress(c)], [c] in [cs]. *)
Fixpoint displayed (cs : list pynum) (w : state) : list Z :=
  match cs with
  | [] => []
  | c :: rest =>
      let w' := state_of (Body.progress c w) in
      pd_value (progress_bar w') :: displayed rest w'
  end.

(** ** The row [add_source] builds

    [restyle_source u source info] is what the setters of [add_source] do to
    an item, namely nothing unless it is the item of identity [u];
    [source_row u source info] is the new row once it is populated. *)

Definition restyle_source (u : nat) (source : string) (info : Source)
    (it : QTreeWidgetItem) : QTreeWidgetItem :=
  if Nat.eqb (item_id it) u then
    setToolTip2 (setText2 (src_size info)
      (setToolTip1 (setText1 (strip (src_label info))
        (setToolTip0 (setText0 (src_device info)
          (setIcon "media-optical" (setText0 source it)))))))
  else it.

Definition source_row (u : nat) (source : string) (info : Source) : QTreeWidgetItem :=
  {| item_id := u; user_data := source; text0 := src_device info;
     text1 := strip (src_label info); text2 := Some (src_size info);
     tooltip0 := src_device info; tooltip1 := strip (src_label info);
     tooltip2 := Some (src_size info); icon := "media-optical";
     cell_widget := false |}.

(** ** Texts of the message boxes of [install] *)

Definition select_both_message : string :=
  "You must select both source image and target device first.".

Definition confirm_box : dialog :=
  Question "Are you sure you want to write the disc image to the device?"
           "All existing data will be lost.".

Definition not_large_enough : string :=
  "The device is not large enough to hold this image.".

(** ** Sample states *)

Definition demo_backend : Backend :=
  {| sources :=
       {[ "/home/u/a.iso" :=
            {| src_device := "/home/u/a.iso"; src_label := " Ubuntu 14.04 ";
               src_size := 1000; src_type := SOURCE_ISO |} ]};
     targets :=
       {[ "/dev/sdb" :=
            {| tgt_vendor := "Acme"; tgt_model := "Stick"; tgt_device := "/dev/sdb";
               tgt_label := "DATA"; tgt_capacity := 8000; tgt_status := CAN_USE |} ]}
       ∪ {[ "/dev/sdc" :=
            {| tgt_vendor := "Acme"; tgt_model := "Mini"; tgt_device := "/dev/sdc";
               tgt_label := ""; tgt_capacity := 500; tgt_status := CANNOT_USE |} ]};
     current_source := None;
     calls := [] |}.

(** A front-end just constructed with the default arguments. *)
Definition demo_start : state :=
  __init__ demo_backend default_img default_allow_system_internal [].

(** The backend has announced one source and one target. *)
Definition demo_listed : state :=
  deliver_all [Source_added "/home/u/a.iso"; Target_added "/dev/sdb"] demo_start.

(** The slot of the source list has run for the source shown. *)
Definition demo_selected : state :=
  state_of (source_selection_changed (currentItem (source_list demo_listed))
                                     demo_listed).

(** The user has started the installation and confirmed it. *)
Definition demo_installing : state :=
  state_of (install Yes None demo_listed).

(** The progress dialog hidden during an installation, as [warning_dialog]
    leaves it while its box is open. *)
Definition demo_cancelling : state := on_progress_bar pd_hide demo_installing.

(** ** The remaining methods *)

(** [startup_failure] (a class method): an error box, then exit status 1. *)
Definition startup_failure (message : string) : M unit :=
  modify (show_dialog (Critical message)) ;;
  raise (SystemExit 1).

(** [format_dest_clicked]. *)
Definition format_dest_clicked : M unit := ret tt.

(** ** Vocabulary of the further properties *)

(** The text [__fail] shows for [message]. *)
Definition failure_text (message : option string) : string :=
  match message with
  | Some m => if str_truthy m then m else "Installation failed."
  | None => "Installation failed."
  end.

Definition completion_text : string :=
  "The installation is complete.  You may now reboot your computer with this device inserted to try or install Ubuntu.".

Definition quit_box : dialog :=
  Warning "Quit the installation?"
          "Do you really want to quit the installation now?".

(** The calls [__init__] makes to the backend, in order. *)
Definition startup_calls (img : pyobj) (isos : list string) : list backend_call :=
  ((if is_not img None_ then [Add_image (text_type (obj_val img))] else [])
   ++ List.map Add_image isos ++ [Detect_devices])%list.

(** Successive firings of the refresh loop, [backend.update_free] answering
    the values of [answers] in turn. *)
Definition refresh (answers : list pyval) (w : state) : state :=
  fold_left (fun w answer => state_of (update_loop_timeout answer w)) answers w.

(** The row [add_target] leaves for [target]: populated from the backend's
    entry [dev], or with the bare id when it stops at the missing key. *)
Definition target_row (u : nat) (target : string) (dev : Target) : QTreeWidgetItem :=
  {| item_id := u; user_data := target; text0 := pretty_name dev;
     text1 := tgt_label dev; text2 := Some (tgt_capacity dev);
     tooltip0 := pretty_name dev; tooltip1 := tgt_label dev;
     tooltip2 := Some (tgt_capacity dev);
     icon := "drive-removable-media-usb-pendrive"; cell_widget := false |}.

Definition bare_row (u : nat) (id icon_name : string) : QTreeWidgetItem :=
  {| item_id := u; user_data := id; text0 := id; text1 := ""; text2 := None;
     tooltip0 := ""; tooltip1 := ""; tooltip2 := None; icon := icon_name;
     cell_widget := false |}.

(** A list of ids without the first occurrence of [t]. *)
Fixpoint remove_first (t : string) (l : list string) : list string :=
  match l with
  | [] => []
  | x :: r => if String.eqb x t then r else x :: remove_first t r
  end.

(** A list that has rows has a current row. *)
Definition has_current (tw : QTreeWidget) : Prop :=
  topLevelItems tw <> [] ->
  exists item, currentItem tw = Some item /\ In item (topLevelItems tw).

(** Every closure in the queue is counted as an unfinished task, and nothing
    else is. *)
Definition accounted (q : Queue) : Prop :=
  unfinished_tasks q = length (items q).

(** * Properties *)

(** Unfolding of the plumbing of method bodies. *)
Ltac unfold_M := unfold getitem, notify, bind, modify, ret, raise in *.

Lemma button_eqb_eq (a b : StandardButton) : button_eqb a b = true <-> a = b.
Proof. destruct a, b; simpl; split; congruence. Qed.

Lemma target_status_eqb_eq (a b : target_status) :
  target_status_eqb a b = true <-> a = b.
Proof. destruct a, b; simpl; split; congruence. Qed.

Lemma source_type_eqb_eq (a b : source_type) :
  source_type_eqb a b = true <-> a = b.
Proof. destruct a, b; simpl; split; congruence. Qed.

Lemma str_truthy_true (s : string) : str_truthy s = true <-> s <> "".
Proof.
  unfold str_truthy. destruct (String.eqb_spec s ""); simpl; split;
    congruence.
Qed.

(** ** The retry round-trip *)

Section Retry.

Variable message : string.

(** What the backend gets back from its [retry_cb]. *)
Lemma retry_returns_None (w : state) :
  retry message w
  = Return PyNone (set_queue (put (call_retry message) (queue w)) w).
Proof. reflexivity. Qed.

(** The decorated function does compute the user's decision ... *)
Lemma retry_body_decides (res : StandardButton) (w : state) :
  Body.retry res message w
  = Return (PyBool (button_eqb res Yes))
           (show_dialog (Warning "Retry?" message) w).
Proof. reflexivity. Qed.

(** ... and the queue processor drops it. *)
Lemma test_func_drops_decision (res : StandardButton) (w : state) (q : Queue) :
  get_nowait (queue w) = Some (call_retry message, q) ->
  test_func res w
  = Return (PyBool true)
      (set_queue (task_done q)
         (show_dialog (Warning "Retry?" message) (set_queue q w))).
Proof.
  intros Hq. unfold test_func, empty. unfold get_nowait in *.
  destruct (items (queue w)); [discriminate|].
  simpl. injection Hq as -> <-. reflexivity.
Qed.

End Retry.

(** C1: the claim says that the retry callback hands the backend a boolean
    that is [True] exactly when the user chose Yes.  The code does not: for
    every message and state the callback puts a closure into the queue and
    answers [None] at once, whatever the user will choose; the boolean is
    computed later, when the queue processor runs the closure, and
    [test_func] answers [True] and leaves the same state for Yes and for
    No. *)
Theorem retry_callback_answers_None_not_decision :
  forall (message : string) (w : state),
    (exists w', retry message w = Return PyNone w'
                /\ items (queue w') = (items (queue w) ++ [call_retry message])%list
                /\ dialogs w' = dialogs w)
    /\ (forall res, exists w',
           apply_closure res (call_retry message) w
           = Return (PyBool (button_eqb res Yes)) w')
    /\ (forall q, get_nowait (queue w) = Some (call_retry message, q) ->
         test_func Yes w = test_func No w
         /\ exists w', test_func Yes w = Return (PyBool true) w').
Proof.
  intros message w. split; [|split].
  - rewrite retry_returns_None. eexists. split; [reflexivity|]. split; reflexivity.
  - intros res. simpl. rewrite retry_body_decides. eauto.
  - intros q Hq.
    rewrite (test_func_drops_decision message Yes w q Hq).
    rewrite (test_func_drops_decision message No w q Hq).
    split; [reflexivity|eauto].
Qed.

(** ** Timers *)

Lemma delete_timeout_answer (timer : QTimer) :
  fst (delete_timeout timer) = negb (isActive timer).
Proof. unfold delete_timeout. destruct (isActive timer); reflexivity. Qed.

Lemma delete_timeout_timer (timer : QTimer) :
  snd (delete_timeout timer) = timer.
Proof.
  unfold delete_timeout, isActive. destruct timer as [i [|]]; reflexivity.
Qed.

Lemma install_update_loop (res : StandardButton) (fault : option exn) (w : state) :
  update_loop (state_of (install res fault w)) = update_loop w.
Proof.
  unfold install.
  destruct (str_truthy (get_source w) && str_truthy (get_target w)); [|reflexivity].
  unfold_M. simpl. destruct res; simpl; [|reflexivity].
  destruct fault; simpl; apply delete_timeout_timer.
Qed.

(** C9: [delete_timeout] answers [True] exactly for a timer that is already
    inactive and never changes whether a timer runs; for an active timer it
    answers [False] and hands the timer back as it was.  So the refresh
    loop started with 2000 ms, once active, is still the same active timer
    after [install] (whatever the user answers and whether or not the
    backend raises), and its next firing calls [update_free] again. *)
Theorem delete_timeout_leaves_active_timer_running :
  forall (w : state) (res : StandardButton) (fault : option exn) (answer : pyval),
    isActive (update_loop w) = true ->
    (forall timer : QTimer,
        (fst (delete_timeout timer) = true <-> isActive timer = false)
        /\ isActive (snd (delete_timeout timer)) = isActive timer)
    /\ delete_timeout (update_loop w) = (false, update_loop w)
    /\ update_loop (state_of (install res fault w)) = update_loop w
    /\ isActive (update_loop (state_of (install res fault w))) = true
    /\ calls (backend (state_of
          (update_loop_timeout answer (state_of (install res fault w)))))
       = (calls (backend (state_of (install res fault w))) ++ [Update_free])%list.
Proof.
  intros w res fault answer Hact. repeat split.
  - rewrite delete_timeout_answer. destruct (isActive timer); simpl; congruence.
  - rewrite delete_timeout_answer. destruct (isActive timer); simpl; congruence.
  - rewrite delete_timeout_timer. reflexivity.
  - unfold delete_timeout. rewrite Hact. reflexivity.
  - apply install_update_loop.
  - rewrite install_update_loop. exact Hact.
  - unfold update_loop_timeout. rewrite install_update_loop, Hact.
    unfold __timeout_callback. unfold_M. simpl.
    destruct (truthy answer); reflexivity.
Qed.

(** The statement at the sample front-end: its refresh loop is active when [install] is asked to delete it, and stays so. *)
Lemma delete_timeout_leaves_active_timer_running_witness :
  isActive (update_loop demo_listed) = true
  /\ update_loop demo_installing = {| interval := 2000; active := true |}
  /\ delete_timeout (update_loop demo_listed) = (false, update_loop demo_listed).
Proof.
  pose proof (delete_timeout_leaves_active_timer_running
                demo_listed Yes None (PyBool true) eq_refl) as H.
  split; [reflexivity|]. split; [reflexivity|].
  exact (proj1 (proj2 H)).
Defined.

(** ** Visibility of the source widgets *)

(** C10: the three source widgets are hidden exactly when [img] is not the
    object of the literal ['']; with the default [img=None] they are hidden,
    and they are shown only for that one object. *)
Theorem sources_hidden_unless_img_is_empty_literal :
  forall (b : Backend) (img : pyobj) (allow : bool) (isos : list string),
    let m := mainWindow (__init__ b img allow isos) in
    ui_source_list_hidden m = is_not img empty_str
    /\ ui_add_source_hidden m = is_not img empty_str
    /\ source_label_hidden m = is_not img empty_str
    /\ (let d := mainWindow (__init__ b default_img allow isos) in
        ui_source_list_hidden d = true /\ ui_add_source_hidden d = true
        /\ source_label_hidden d = true)
    /\ (ui_source_list_hidden m = false <-> obj_id img = obj_id empty_str).
Proof.
  intros b img allow isos. unfold __init__, __initUI.
  assert (Hid : is_not img empty_str = false <-> obj_id img = obj_id empty_str).
  { unfold is_not, is_. destruct (N.eqb_spec (obj_id img) (obj_id empty_str));
      cbn [negb]; split; congruence. }
  destruct (is_not img empty_str) eqn:E; simpl; repeat split; try tauto;
    try (intros; discriminate); try (apply Hid).
Qed.

(** ** Install requests *)

Lemma install_without_selection (res : StandardButton) (fault : option exn) (w : state) :
  str_truthy (get_source w) && str_truthy (get_target w) = false ->
  install res fault w = Return tt (show_dialog (Warning "" select_both_message) w).
Proof. intros H. unfold install. rewrite H. reflexivity. Qed.

Lemma install_backend_raises (e : exn) (w : state) :
  str_truthy (get_source w) && str_truthy (get_target w) = true ->
  exists w',
    install Yes (Some e) w = Raise (SystemExit 1) w'
    /\ dialogs w' = (dialogs w ++ [confirm_box; Critical "Installation failed."])%list
    /\ isHidden (progress_bar w') = true
    /\ calls (backend w')
       = (calls (backend w)
            ++ [Install (get_source w) (get_target w) (allow_system_internal w)])%list.
Proof.
  intros H. unfold install. rewrite H. unfold __fail. unfold_M. simpl.
  eexists. split; [reflexivity|]. simpl.
  rewrite <- app_assoc. repeat split.
Qed.

Lemma install_shows_a_box (res : StandardButton) (fault : option exn) (w : state) :
  exists d rest,
    dialogs (state_of (install res fault w)) = (dialogs w ++ d :: rest)%list.
Proof.
  unfold install.
  destruct (str_truthy (get_source w) && str_truthy (get_target w)).
  - unfold __fail. unfold_M. simpl. destruct res; simpl.
    + destruct fault; simpl.
      * rewrite <- app_assoc. simpl. eauto.
      * eauto.
    + eauto.
  - unfold_M. simpl. eauto.
Qed.

(** C7: an install request is never silent.  With the source or the target
    selection empty, [install] shows the box "You must select both source
    image and target device first." and changes nothing else, so the
    backend's [install] is not called; when both are selected, the user
    confirms and the backend's [install] raises, the error box
    "Installation failed." is shown, the progress dialog is hidden and the
    process exits with status 1; and in every case at least one message box
    is put on the screen. *)
Theorem install_never_silent :
  forall (res : StandardButton) (fault : option exn) (w : state),
    (str_truthy (get_source w) && str_truthy (get_target w) = false ->
       install res fault w
       = Return tt (show_dialog (Warning "" select_both_message) w)
       /\ backend (state_of (install res fault w)) = backend w)
    /\ (str_truthy (get_source w) && str_truthy (get_target w) = true ->
        forall e, exists w',
          install Yes (Some e) w = Raise (SystemExit 1) w'
          /\ dialogs w' = (dialogs w ++ [confirm_box; Critical "Installation failed."])%list
          /\ isHidden (progress_bar w') = true
          /\ installs (backend w')
             = (installs (backend w)
                  ++ [Install (get_source w) (get_target w) (allow_system_internal w)])%list)
    /\ (exists d rest,
          dialogs (state_of (install res fault w)) = (dialogs w ++ d :: rest)%list).
Proof.
  intros res fault w. split; [|split].
  - intros H. rewrite (install_without_selection res fault w H). split; reflexivity.
  - intros H e. destruct (install_backend_raises e w H) as (w' & Hr & Hd & Hp & Hc).
    exists w'. repeat split; try assumption.
    unfold installs. rewrite Hc, List.filter_app. reflexivity.
  - apply install_shows_a_box.
Qed.

(** ** Progress *)

Lemma progress_hidden (complete : pynum) (w : state) :
  isHidden (progress_bar w) = true ->
  Body.progress complete w = Return PyNone w.
Proof. intros H. unfold Body.progress. rewrite H. reflexivity. Qed.

(** A call of [progress] changes nothing of the dialog but its value and
    its label, and nothing outside the dialog. *)
Lemma progress_frame (complete : pynum) (w : state) :
  isHidden (progress_bar (state_of (Body.progress complete w)))
  = isHidden (progress_bar w)
  /\ pd_minimum (progress_bar (state_of (Body.progress complete w)))
     = pd_minimum (progress_bar w)
  /\ pd_maximum (progress_bar (state_of (Body.progress complete w)))
     = pd_maximum (progress_bar w)
  /\ set_progress_bar (progress_bar w) (state_of (Body.progress complete w)) = w.
Proof.
  unfold Body.progress. destruct w as [q d i a m p r b qp ul].
  cbn [progress_bar]. destruct (negb (isHidden p)); [|repeat split].
  destruct (py_int _) as [e|value]; [repeat split|].
  destruct (fits_c_int value); [|repeat split].
  unfold_M. unfold on_progress_bar, set_progress_bar, pd_setValue, pd_setLabelText.
  cbn [progress_bar state_of].
  destruct (num_eq _ 100), ((pd_minimum p <=? value) && (value <=? pd_maximum p));
    destruct p; repeat split.
Qed.

(** A value above 100 is shown as 100, with the finishing label. *)
Lemma progress_above_100 (complete : pynum) (w : state) :
  isHidden (progress_bar w) = false ->
  pd_minimum (progress_bar w) = 0 -> pd_maximum (progress_bar w) = 100 ->
  num_gt complete 100 = true ->
  raised (Body.progress complete w) = None
  /\ pd_value (progress_bar (state_of (Body.progress complete w))) = 100
  /\ pd_labelText (progress_bar (state_of (Body.progress complete w)))
     = "Finishing...".
Proof.
  intros Hvis Hmin Hmax Hgt. unfold Body.progress. rewrite Hvis, Hgt.
  cbn [negb py_int fits_c_int num_eq]. unfold_M. cbn.
  unfold pd_setValue. rewrite Hmin, Hmax. repeat split.
Qed.

(** A value not above 100 whose integer part [v] is not negative is shown
    as [v], which is at most 100. *)
Lemma num_not_gt_int (complete : pynum) (v : Z) :
  num_gt complete 100 = false -> py_int complete = inr v -> v <= 100.
Proof.
  destruct complete as [z|q|n|]; cbn [num_gt py_int]; try discriminate.
  - intros H [= <-]. destruct (Z.gtb_spec z 100); [discriminate|lia].
  - intros H [= <-]. apply negb_false_iff, Qle_bool_iff in H.
    unfold Qle in H. cbn [inject_Z Qnum Qden] in H.
    apply Z.quot_le_upper_bound; lia.
Qed.

Lemma progress_in_range (complete : pynum) (v : Z) (w : state) :
  isHidden (progress_bar w) = false ->
  pd_minimum (progress_bar w) = 0 -> pd_maximum (progress_bar w) = 100 ->
  num_gt complete 100 = false ->
  py_int complete = inr v -> 0 <= v ->
  raised (Body.progress complete w) = None
  /\ pd_value (progress_bar (state_of (Body.progress complete w))) = v
  /\ v <= 100
  /\ pd_labelText (progress_bar (state_of (Body.progress complete w)))
     = (if num_eq complete 100 then "Finishing..." else pd_labelText (progress_bar w)).
Proof.
  intros Hvis Hmin Hmax Hgt Hint Hv.
  pose proof (num_not_gt_int complete v Hgt Hint) as Hle.
  unfold Body.progress. rewrite Hvis, Hgt. cbn [negb]. rewrite Hint.
  assert (Hfit : fits_c_int v = true).
  { unfold fits_c_int. apply andb_true_iff. split; apply Z.leb_le; lia. }
  rewrite Hfit. unfold_M. unfold on_progress_bar, pd_setValue.
  cbn [progress_bar set_progress_bar]. rewrite Hmin, Hmax.
  assert (Hin : (0 <=? v) && (v <=? 100) = true).
  { apply andb_true_iff. split; apply Z.leb_le; lia. }
  rewrite Hin. destruct (num_eq complete 100); cbn; repeat split; assumption.
Qed.

(** A negative integer part that fits a C [int] is passed on and ignored by
    the bar. *)
Lemma progress_negative (complete : pynum) (v : Z) (w : state) :
  isHidden (progress_bar w) = false ->
  pd_minimum (progress_bar w) = 0 ->
  py_int complete = inr v -> v < 0 -> fits_c_int v = true ->
  raised (Body.progress complete w) = None
  /\ pd_value (progress_bar (state_of (Body.progress complete w)))
     = pd_value (progress_bar w).
Proof.
  intros Hvis Hmin Hint Hv Hfit.
  assert (Hgt : num_gt complete 100 = false).
  { destruct complete as [z|q|n|]; cbn [num_gt py_int] in *; try discriminate.
    - injection Hint as <-. destruct (Z.gtb_spec z 100); [lia|reflexivity].
    - injection Hint as <-. apply negb_false_iff, Qle_bool_iff.
      unfold Qle. cbn [inject_Z Qnum Qden].
      assert (Qnum q < 0).
      { destruct (Z.lt_ge_cases (Qnum q) 0) as [H|H]; [exact H|].
        pose proof (Z.quot_pos (Qnum q) (Z.pos (Qden q)) H ltac:(lia)). lia. }
      nia. }
  unfold Body.progress. rewrite Hvis, Hgt. cbn [negb]. rewrite Hint, Hfit.
  unfold_M. unfold on_progress_bar, pd_setValue.
  cbn [progress_bar set_progress_bar]. rewrite Hmin.
  assert (Hout : (0 <=? v) = false) by (apply Z.leb_gt; exact Hv).
  rewrite Hout. cbn [andb].
  destruct (num_eq complete 100) eqn:He; cbn; [|split; reflexivity].
  exfalso. destruct complete as [z|q|n|]; cbn [num_eq py_int] in *; try discriminate.
  - injection Hint as <-. apply Z.eqb_eq in He. lia.
  - injection Hint as <-. apply Qeq_bool_iff in He.
    unfold Qeq in He. cbn [inject_Z Qnum Qden] in He.
    assert (0 <= Qnum q) by nia.
    pose proof (Z.quot_pos (Qnum q) (Z.pos (Qden q)) H ltac:(lia)). lia.
Qed.

(** What is shown for a finite number that is not negative. *)
Lemma progress_nonneg (complete : pynum) (w : state) :
  isHidden (progress_bar w) = false ->
  pd_minimum (progress_bar w) = 0 -> pd_maximum (progress_bar w) = 100 ->
  nonneg complete ->
  raised (Body.progress complete w) = None
  /\ pd_value (progress_bar (state_of (Body.progress complete w))) = capped complete
  /\ 0 <= capped complete <= 100.
Proof.
  intros Hvis Hmin Hmax Hnn.
  assert (Hint : exists v, py_int complete = inr v /\ 0 <= v).
  { destruct complete as [z|q|n|]; cbn [nonneg num_Q py_int] in *; try tauto.
    - exists z. split; [reflexivity|].
      unfold Qle in Hnn. cbn [inject_Z Qnum Qden] in Hnn. lia.
    - eexists. split; [reflexivity|]. apply Z.quot_pos; [|lia].
      unfold Qle in Hnn. cbn [Qnum Qden] in Hnn. lia. }
  destruct Hint as (v & Hint & Hv). unfold capped. rewrite Hint.
  destruct (num_gt complete 100) eqn:Hgt.
  - destruct (progress_above_100 complete w Hvis Hmin Hmax Hgt) as (Hr & Hval & _).
    split; [exact Hr|]. rewrite Hval.
    assert (100 <= v); [|lia].
    destruct complete as [z|q|n|]; cbn [num_gt py_int] in *; try discriminate.
    + injection Hint as <-. destruct (Z.gtb_spec z 100); [lia|discriminate].
    + injection Hint as <-. apply negb_true_iff in Hgt.
      assert (Hlt : ~ (q <= inject_Z 100)%Q).
      { intros H. apply Qle_bool_iff in H. congruence. }
      unfold Qle in Hlt. cbn [inject_Z Qnum Qden] in Hlt.
      apply Z.quot_le_lower_bound; lia.
  - destruct (progress_in_range complete v w Hvis Hmin Hmax Hgt Hint Hv)
      as (Hr & Hval & Hle & _).
    split; [exact Hr|]. rewrite Hval. lia.
Qed.

Lemma displayed_nonneg (cs : list pynum) :
  forall w,
    isHidden (progress_bar w) = false ->
    pd_minimum (progress_bar w) = 0 -> pd_maximum (progress_bar w) = 100 ->
    Forall nonneg cs ->
    displayed cs w = List.map capped cs.
Proof.
  induction cs as [|c cs IH]; intros w Hvis Hmin Hmax Hall; [reflexivity|].
  apply List.Forall_cons_iff in Hall. destruct Hall as [Hc Hall].
  cbn [displayed List.map].
  destruct (progress_nonneg c w Hvis Hmin Hmax Hc) as (_ & Hval & _).
  destruct (progress_frame c w) as (Hh & Hlo & Hhi & _).
  rewrite Hval. f_equal. apply IH; congruence.
Qed.

Lemma capped_monotone (x y : pynum) :
  nonneg x -> num_le x y -> capped x <= capped y.
Proof.
  unfold nonneg, num_le, capped.
  destruct x as [a|p|n|], y as [b|q|n'|]; cbn [num_Q py_int]; try tauto;
    unfold Qle; cbn [inject_Z Qnum Qden]; intros Hx Hxy;
    apply Z.min_le_compat_r.
  - lia.
  - apply Z.quot_le_lower_bound; lia.
  - apply Z.quot_le_upper_bound; lia.
  - assert (H0 : 0 <= Qnum p) by lia.
    assert (Hq : 0 <= Qnum q) by nia.
    rewrite !Z.quot_div_nonneg by lia.
    apply Z.div_le_lower_bound; [lia|].
    pose proof (Z.mul_div_le (Qnum p) (Z.pos (Qden p)) ltac:(lia)). nia.
Qed.

Lemma capped_sorted (cs : list pynum) :
  Forall nonneg cs -> StronglySorted num_le cs ->
  StronglySorted Z.le (List.map capped cs).
Proof.
  intros Hnn Hs. induction Hs as [|c cs Hs IH Hall]; simpl; constructor.
  - apply IH. apply List.Forall_cons_iff in Hnn. tauto.
  - apply List.Forall_cons_iff in Hnn. destruct Hnn as [Hc _].
    rewrite List.Forall_map. eapply List.Forall_impl; [|exact Hall].
    intros y Hy. apply capped_monotone; assumption.
Qed.

(** C3, as the code has it: while the progress dialog (range 0..100) is not
    hidden, a call [progress(c)] with any number [c] shows 100 with the
    label "Finishing..." when [c] exceeds 100; shows the integer part of
    [c], which then lies in [0,100], when that is not negative (with the
    finishing label exactly when [c == 100]); leaves the value shown as it
    is when the integer part is negative; and raises, changing nothing,
    when [c] is a NaN or an infinity that is not above 100 or its integer
    part does not fit a C int.  So a call never moves the value out of
    [0,100], and for non-negative finite values the sequence shown is the
    integer parts capped at 100, non-decreasing whenever the values passed
    are.  While the dialog is hidden a call changes nothing. *)
Theorem progress_shows_integer_part_capped_at_100 :
  forall (cs : list pynum) (w : state),
    isHidden (progress_bar w) = false ->
    pd_minimum (progress_bar w) = 0 ->
    pd_maximum (progress_bar w) = 100 ->
    (forall c, num_gt c 100 = true ->
       raised (Body.progress c w) = None
       /\ pd_value (progress_bar (state_of (Body.progress c w))) = 100
       /\ pd_labelText (progress_bar (state_of (Body.progress c w))) = "Finishing...")
    /\ (forall c v, num_gt c 100 = false -> py_int c = inr v -> 0 <= v ->
          raised (Body.progress c w) = None
          /\ pd_value (progress_bar (state_of (Body.progress c w))) = v
          /\ v <= 100
          /\ pd_labelText (progress_bar (state_of (Body.progress c w)))
             = (if num_eq c 100 then "Finishing..."
                else pd_labelText (progress_bar w)))
    /\ (forall c v, py_int c = inr v -> v < 0 -> fits_c_int v = true ->
          raised (Body.progress c w) = None
          /\ pd_value (progress_bar (state_of (Body.progress c w)))
             = pd_value (progress_bar w))
    /\ (forall c,
          (forall e, num_gt c 100 = false -> py_int c = inl e ->
             Body.progress c w = Raise e w)
          /\ (forall v, num_gt c 100 = false -> py_int c = inr v ->
                fits_c_int v = false ->
                Body.progress c w = Raise OverflowError w))
    /\ (forall c,
          pd_value (progress_bar (state_of (Body.progress c w)))
          = pd_value (progress_bar w)
          \/ 0 <= pd_value (progress_bar (state_of (Body.progress c w))) <= 100)
    /\ (Forall nonneg cs ->
          displayed cs w = List.map capped cs
          /\ Forall (fun v => 0 <= v <= 100) (displayed cs w)
          /\ (StronglySorted num_le cs -> StronglySorted Z.le (displayed cs w)))
    /\ (forall c w0, isHidden (progress_bar w0) = true ->
          Body.progress c w0 = Return PyNone w0).
Proof.
  intros cs w Hvis Hmin Hmax.
  split; [intros c; apply progress_above_100; assumption|].
  split; [intros c v; apply progress_in_range; assumption|].
  split; [intros c v; apply progress_negative; assumption|].
  split; [|split; [|split]].
  - intros c. split.
    + intros e Hgt Hint. unfold Body.progress. rewrite Hvis, Hgt.
      cbn [negb]. rewrite Hint. reflexivity.
    + intros v Hgt Hint Hfit. unfold Body.progress. rewrite Hvis, Hgt.
      cbn [negb]. rewrite Hint, Hfit. reflexivity.
  - intros c. destruct (num_gt c 100) eqn:Hgt.
    + right. destruct (progress_above_100 c w Hvis Hmin Hmax Hgt) as (_ & -> & _). lia.
    + destruct (py_int c) as [e|v] eqn:Hint.
      * left. unfold Body.progress. rewrite Hvis, Hgt. cbn [negb].
        rewrite Hint. reflexivity.
      * destruct (fits_c_int v) eqn:Hfit.
        -- destruct (Z.lt_ge_cases v 0) as [Hneg|Hpos].
           ++ left. apply (progress_negative c v w); assumption.
           ++ right.
              destruct (progress_in_range c v w Hvis Hmin Hmax Hgt Hint Hpos)
                as (_ & -> & Hle & _). lia.
        -- left. unfold Body.progress. rewrite Hvis, Hgt. cbn [negb].
           rewrite Hint, Hfit. reflexivity.
  - intros Hnn. rewrite (displayed_nonneg cs w Hvis Hmin Hmax Hnn).
    split; [reflexivity|]. split.
    + rewrite List.Forall_map. eapply List.Forall_impl; [|exact Hnn].
      intros c Hc. apply (progress_nonneg c w Hvis Hmin Hmax Hc).
    + apply capped_sorted. exact Hnn.
  - intros c w0 Hh. apply progress_hidden. exact Hh.
Qed.

(** The statement at the sample installation, for the values 0, 40.5, 100
    and 250. *)
Lemma progress_shows_integer_part_capped_at_100_witness :
  isHidden (progress_bar demo_installing) = false
  /\ displayed [PyInt 0; PyFloat (81 # 2); PyInt 100; PyInt 250] demo_installing
     = [0; 40; 100; 100].
Proof.
  split; [reflexivity|].
  assert (Hnn : Forall nonneg [PyInt 0; PyFloat (81 # 2); PyInt 100; PyInt 250]).
  { repeat constructor; cbn; unfold Qle; cbn; lia. }
  exact (proj1 (proj1 (proj2 (proj2 (proj2 (proj2 (proj2
           (progress_shows_integer_part_capped_at_100
              [PyInt 0; PyFloat (81 # 2); PyInt 100; PyInt 250]
              demo_installing eq_refl eq_refl eq_refl)))))) Hnn)).
Defined.

(** C3 as stated fails on the code: the values 50 then 30 are displayed as
    50 then 30, a decreasing sequence; [success] may then follow with 30 as
    the last value shown; with the dialog hidden an input above 100 is not
    shown as 100; and a value below the range of a C int is not displayed
    at all: the call raises [OverflowError]. *)
Lemma progress_display_follows_input :
  displayed [PyInt 50; PyInt 30] demo_installing = [50; 30]
  /\ raised (apply_closure Yes call_success
               (state_of (Body.progress 30
                  (state_of (Body.progress 50 demo_installing)))))
     = Some (SystemExit 0)
  /\ pd_value (progress_bar (state_of
        (apply_closure Yes call_success
           (state_of (Body.progress 30
              (state_of (Body.progress 50 demo_installing))))))) = 30
  /\ displayed [PyInt 150] demo_cancelling = [-1]
  /\ raised (Body.progress (-2147483649) demo_installing) = Some OverflowError.
Proof. repeat split. Qed.

(** ** The start button and the destination status *)

Lemma update_target_without_source (udi : string) (w : state) (target : Target) :
  targets (backend w) !! udi = Some target ->
  opt_truthy (get_current_source (backend w)) = false ->
  update_target udi w = Return tt w.
Proof.
  intros Ht Hs. unfold update_target. unfold_M. rewrite Ht.
  destruct (get_current_source (backend w)) as [source|]; [|reflexivity].
  simpl in Hs. rewrite Hs. reflexivity.
Qed.

Lemma update_target_with_source (udi source : string) (w : state)
    (target : Target) (info : Source) :
  targets (backend w) !! udi = Some target ->
  get_current_source (backend w) = Some source ->
  source <> "" ->
  sources (backend w) !! source = Some info ->
  update_target udi w
  = Return tt
      (set_mainWindow
         (set_ui_dest_status
            (if target_status_eqb (tgt_status target) CANNOT_USE
             then not_large_enough else "")
            (setEnabled
               (target_status_eqb (tgt_status target) CAN_USE
                || (ui_start_button_enabled (mainWindow w)
                    && source_type_eqb (src_type info) SOURCE_IMG))
               (mainWindow w)))
         w).
Proof.
  intros Ht Hc Hne Hs. unfold update_target. unfold_M. rewrite Ht, Hc.
  apply str_truthy_true in Hne. rewrite Hne. simpl. rewrite Hs. simpl.
  destruct (target_status_eqb (tgt_status target) CAN_USE
            || (ui_start_button_enabled (mainWindow w)
                && source_type_eqb (src_type info) SOURCE_IMG)); reflexivity.
Qed.

(** C4, as the code has it: for a target known to the backend,
    [update_target] returns at once, changing neither the start button nor
    the status message, when the backend has no current source; when it has
    one (known to the backend), the start button ends enabled if and only
    if the target's status is CAN_USE, or the button was already enabled
    and the current source has type IMG, and the destination status
    message is the "not large enough" text when the status is CANNOT_USE
    and empty otherwise. *)
Theorem update_target_sets_button_and_status :
  forall (udi : string) (w : state) (target : Target),
    targets (backend w) !! udi = Some target ->
    (opt_truthy (get_current_source (backend w)) = false ->
       update_target udi w = Return tt w)
    /\ (forall (source : string) (info : Source),
          get_current_source (backend w) = Some source ->
          source <> "" ->
          sources (backend w) !! source = Some info ->
          exists w',
            update_target udi w = Return tt w'
            /\ (ui_start_button_enabled (mainWindow w') = true
                <-> tgt_status target = CAN_USE
                    \/ (ui_start_button_enabled (mainWindow w) = true
                        /\ src_type info = SOURCE_IMG))
            /\ (tgt_status target = CANNOT_USE ->
                ui_dest_status (mainWindow w') = not_large_enough)
            /\ (tgt_status target <> CANNOT_USE ->
                ui_dest_status (mainWindow w') = "")).
Proof.
  intros udi w target Ht. split.
  - apply update_target_without_source with target. exact Ht.
  - intros source info Hc Hne Hs.
    rewrite (update_target_with_source udi source w target info Ht Hc Hne Hs).
    eexists. split; [reflexivity|]. simpl. split; [|split].
    + rewrite orb_true_iff, andb_true_iff,
        target_status_eqb_eq, source_type_eqb_eq. reflexivity.
    + intros ->. reflexivity.
    + intros Hn. destruct (tgt_status target); try reflexivity. congruence.
Qed.

(** The statement at the sample front-end with its source selected, for the target that is too small. *)
Lemma update_target_sets_button_and_status_witness :
  targets (backend demo_selected) !! "/dev/sdc"
  = Some {| tgt_vendor := "Acme"; tgt_model := "Mini"; tgt_device := "/dev/sdc";
            tgt_label := ""; tgt_capacity := 500; tgt_status := CANNOT_USE |}
  /\ exists w',
       update_target "/dev/sdc" demo_selected = Return tt w'
       /\ ui_dest_status (mainWindow w') = not_large_enough.
Proof.
  split; [reflexivity|].
  destruct (proj2 (update_target_sets_button_and_status
                     "/dev/sdc" demo_selected _ eq_refl)
                  "/home/u/a.iso"
                  {| src_device := "/home/u/a.iso"; src_label := " Ubuntu 14.04 ";
                     src_size := 1000; src_type := SOURCE_ISO |}
                  eq_refl ltac:(discriminate) eq_refl)
    as (w' & Hr & _ & Hm & _).
  exists w'. split; [exact Hr|]. apply Hm. reflexivity.
Defined.

(** C4 as stated fails on the code: with no current source in the backend,
    [update_target] for a target of status CAN_USE leaves the start button
    disabled, and for a target of status CANNOT_USE leaves the status
    message empty. *)
Lemma update_target_returns_early_without_source :
  get_current_source (backend demo_listed) = None
  /\ option_map tgt_status (targets (backend demo_listed) !! "/dev/sdb") = Some CAN_USE
  /\ update_target "/dev/sdb" demo_listed = Return tt demo_listed
  /\ ui_start_button_enabled (mainWindow demo_listed) = false
  /\ option_map tgt_status (targets (backend demo_listed) !! "/dev/sdc") = Some CANNOT_USE
  /\ update_target "/dev/sdc" demo_listed = Return tt demo_listed
  /\ ui_dest_status (mainWindow demo_listed) = "".
Proof. repeat split. Qed.

(** ** Labels of sources *)

Lemma select_first_items (tw : QTreeWidget) :
  topLevelItems (select_first_if_none tw) = topLevelItems tw.
Proof.
  unfold select_first_if_none. destruct (currentItem tw); [reflexivity|].
  destruct (topLevelItem 0 tw); reflexivity.
Qed.

Lemma select_first_next (tw : QTreeWidget) :
  next_item (select_first_if_none tw) = next_item tw.
Proof.
  unfold select_first_if_none. destruct (currentItem tw); [reflexivity|].
  destruct (topLevelItem 0 tw); reflexivity.
Qed.

Lemma add_source_known (source : string) (info : Source) (w : state) :
  sources (backend w) !! source = Some info ->
  let new := next_item (source_list w) in
  let w' := state_of (add_source source w) in
  add_source source w = Return tt w'
  /\ backend w' = backend w
  /\ dest_list w' = dest_list w
  /\ queue w' = queue w
  /\ topLevelItems (source_list w')
     = (List.map (restyle_source new source info) (topLevelItems (source_list w))
        ++ [source_row new source info])%list
  /\ next_item (source_list w') = S new.
Proof.
  intros Hs new w'. subst new w'. unfold add_source, new_item. unfold_M.
  cbn [backend on_source_list set_mainWindow].
  rewrite Hs.
  assert (Hitems : forall tw : QTreeWidget,
    topLevelItems (with_item (next_item (source_list w))
      (fun it => setToolTip2 (setText2 (src_size info)
         (setToolTip1 (setText1 (strip (src_label info))
            (setToolTip0 (setText0 (src_device info) it))))))
      (select_first_if_none
         (with_item (next_item (source_list w))
            (fun it => setIcon "media-optical" (setText0 source it))
            {| topLevelItems :=
                 topLevelItems (source_list w)
                 ++ [blank_item (next_item (source_list w)) source];
               current := current (source_list w);
               next_item := S (next_item (source_list w)) |})))
    = (List.map (restyle_source (next_item (source_list w)) source info)
         (topLevelItems (source_list w))
       ++ [source_row (next_item (source_list w)) source info])%list).
  { intros _. unfold with_item at 1. cbn [topLevelItems].
    rewrite select_first_items. unfold with_item. cbn [topLevelItems].
    rewrite !List.map_app, List.map_map. f_equal.
    - apply List.map_ext. intros it. unfold restyle_source.
      destruct (Nat.eqb (item_id it) (next_item (source_list w))) eqn:E.
      + cbn [item_id setIcon setText0]. rewrite E. reflexivity.
      + rewrite E. reflexivity.
    - cbn [List.map blank_item item_id]. rewrite Nat.eqb_refl.
      cbn [item_id setIcon setText0]. rewrite Nat.eqb_refl. reflexivity. }
  specialize (Hitems empty_tree).
  destruct (recently_added_image _) as [recent|];
    [destruct (String.eqb (src_device info) recent)|];
    (split; [reflexivity|]); cbn [state_of];
    (split; [reflexivity|]); (split; [reflexivity|]);
    (split; [reflexivity|]);
    (split; [exact Hitems|]);
    unfold on_source_list, source_list; cbn;
    rewrite ?select_first_next; reflexivity.
Qed.

Lemma drop_while_split {A} (p : A -> bool) (l : list A) :
  exists pre, l = (pre ++ drop_while p l)%list /\ Forall (fun x => p x = true) pre.
Proof.
  induction l as [|x l (pre & Hl & Hp)]; simpl.
  - exists []. split; [reflexivity|constructor].
  - destruct (p x) eqn:E.
    + exists (x :: pre). split; [simpl; congruence|]. constructor; assumption.
    + exists []. split; [reflexivity|constructor].
Qed.

Lemma drop_while_head {A} (p : A -> bool) (l : list A) (x : A) (r : list A) :
  drop_while p l = x :: r -> p x = false.
Proof.
  induction l as [|y l IH]; simpl; [discriminate|].
  destruct (p y) eqn:E; [exact IH|]. intros [= -> _]. exact E.
Qed.

(** [strip] removes whitespace at both ends and nothing else. *)
Lemma strip_spec (s : string) :
  let t := list_ascii_of_string (strip s) in
  (exists pre post,
      list_ascii_of_string s = (pre ++ t ++ post)%list
      /\ Forall (fun c => isspace c = true) pre
      /\ Forall (fun c => isspace c = true) post)
  /\ (forall c r, t = c :: r -> isspace c = false)
  /\ (forall r c, t = (r ++ [c])%list -> isspace c = false).
Proof.
  unfold strip. rewrite list_ascii_of_string_of_list_ascii.
  unfold rstrip_chars, lstrip_chars.
  set (l := list_ascii_of_string s).
  destruct (drop_while_split isspace l) as (pre & Hl & Hpre).
  set (l1 := drop_while isspace l) in *.
  destruct (drop_while_split isspace (reverse l1)) as (post & Hr & Hpost).
  set (d := drop_while isspace (reverse l1)) in *.
  assert (Hl1 : l1 = (reverse d ++ reverse post)%list).
  { rewrite <- reverse_app, <- Hr. symmetry. apply reverse_involutive. }
  cbv zeta. split; [|split].
  - exists pre, (reverse post). split; [|split].
    + rewrite Hl at 1. rewrite Hl1. reflexivity.
    + exact Hpre.
    + apply Forall_reverse. exact Hpost.
  - intros c r Hc. rewrite Hc in Hl1. simpl in Hl1.
    apply (drop_while_head isspace l c (r ++ reverse post)%list). exact Hl1.
  - intros r c Hc.
    assert (Hd : d = c :: reverse r).
    { rewrite <- (reverse_involutive d), Hc, reverse_app. reflexivity. }
    apply (drop_while_head isspace (reverse l1) c (reverse r)). exact Hd.
Qed.

(** C8: for a source known to the backend, [add_source] gives the sources
    list one more row, the row of the new item, whose label column shows
    the stored label with the whitespace at both ends removed (and nothing
    else removed), while the backend's sources mapping, and so the label
    stored in it, is left exactly as it was. *)
Theorem add_source_trims_label_on_display_only :
  forall (source : string) (info : Source) (w : state),
    sources (backend w) !! source = Some info ->
    exists w' row,
      add_source source w = Return tt w'
      /\ In row (topLevelItems (source_list w'))
      /\ item_id row = next_item (source_list w)
      /\ user_data row = source
      /\ text1 row = strip (src_label info)
      /\ length (topLevelItems (source_list w'))
         = S (length (topLevelItems (source_list w)))
      /\ sources (backend w') = sources (backend w)
      /\ option_map src_label (sources (backend w') !! source) = Some (src_label info)
      /\ (exists pre post,
            list_ascii_of_string (src_label info)
            = (pre ++ list_ascii_of_string (text1 row) ++ post)%list
            /\ Forall (fun c => isspace c = true) pre
            /\ Forall (fun c => isspace c = true) post)
      /\ (forall c r, list_ascii_of_string (text1 row) = c :: r -> isspace c = false)
      /\ (forall r c, list_ascii_of_string (text1 row) = (r ++ [c])%list ->
                      isspace c = false).
Proof.
  intros source info w Hs.
  destruct (add_source_known source info w Hs) as (Hr & Hb & _ & _ & Hi & _).
  destruct (strip_spec (src_label info)) as (Hsplit & Hhead & Hlast).
  exists (state_of (add_source source w)),
         (source_row (next_item (source_list w)) source info).
  split; [exact Hr|].
  split; [rewrite Hi; apply List.in_or_app; right; left; reflexivity|].
  split; [reflexivity|]. split; [reflexivity|]. split; [reflexivity|].
  split; [rewrite Hi, List.length_app, List.length_map; cbn [length]; lia|].
  split; [rewrite Hb; reflexivity|]. split; [rewrite Hb, Hs; reflexivity|].
  split; [exact Hsplit|]. split; [exact Hhead|exact Hlast].
Qed.

(** The statement at the sample backend, whose one source has a label with a blank at each end. *)
Lemma add_source_trims_label_on_display_only_witness :
  sources (backend demo_start) !! "/home/u/a.iso"
  = Some {| src_device := "/home/u/a.iso"; src_label := " Ubuntu 14.04 ";
            src_size := 1000; src_type := SOURCE_ISO |}
  /\ exists w' row,
       add_source "/home/u/a.iso" demo_start = Return tt w'
       /\ In row (topLevelItems (source_list w'))
       /\ text1 row = "Ubuntu 14.04"
       /\ option_map src_label (sources (backend w') !! "/home/u/a.iso")
          = Some " Ubuntu 14.04 ".
Proof.
  split; [reflexivity|].
  destruct (add_source_trims_label_on_display_only
              "/home/u/a.iso" _ demo_start eq_refl)
    as (w' & row & Hr & Hi & _ & _ & Ht & _ & _ & Hl & _).
  exists w', row. repeat split; assumption.
Defined.

(** ** Adding an image file *)

Lemma first_row_Some (p : QTreeWidgetItem -> bool) (l : list QTreeWidgetItem)
    (i : nat) (item : QTreeWidgetItem) :
  first_row p l = Some (i, item) -> l !! i = Some item /\ p item = true.
Proof.
  revert i. induction l as [|it l IH]; intros i; simpl; [discriminate|].
  destruct (p it) eqn:E.
  - intros [= <- <-]. split; [reflexivity|exact E].
  - destruct (first_row p l) as [[j x]|]; [|discriminate].
    intros [= <- <-]. destruct (IH j eq_refl) as [H1 H2]. split; assumption.
Qed.

Lemma first_row_found (p : QTreeWidgetItem -> bool) (l : list QTreeWidgetItem)
    (x : QTreeWidgetItem) :
  In x l -> p x = true -> exists i item, first_row p l = Some (i, item).
Proof.
  induction l as [|it l IH]; simpl; [tauto|].
  intros [->|Hin] Hp.
  - rewrite Hp. eauto.
  - destruct (p it); [eauto|].
    destruct (IH Hin Hp) as (i & item & ->). eauto.
Qed.

Lemma add_file_listed (filename : string) (w : state) (i : nat)
    (item : QTreeWidgetItem) :
  filename <> "" ->
  first_row (fun item => String.eqb (text0 item) filename)
            (topLevelItems (source_list w)) = Some (i, item) ->
  add_file_source_dialog filename w
  = Return tt (on_source_list (setCurrentItem (item_id item))
                 (set_recently_added_image None w)).
Proof.
  intros Hne Hf. apply str_truthy_true in Hne.
  unfold add_file_source_dialog. unfold_M. rewrite Hne.
  cbn [negb].
  change (source_list (set_recently_added_image None w)) with (source_list w).
  rewrite Hf. reflexivity.
Qed.

Lemma add_file_new (filename : string) (w : state) :
  filename <> "" ->
  first_row (fun item => String.eqb (text0 item) filename)
            (topLevelItems (source_list w)) = None ->
  add_file_source_dialog filename w
  = Return tt (on_backend (call (Add_image filename))
                 (set_recently_added_image (Some filename)
                    (set_recently_added_image None w))).
Proof.
  intros Hne Hf. apply str_truthy_true in Hne.
  unfold add_file_source_dialog. unfold_M. rewrite Hne.
  cbn [negb].
  change (source_list (set_recently_added_image None w)) with (source_list w).
  rewrite Hf. reflexivity.
Qed.

Lemma added_images_call (c : backend_call) (b : Backend) :
  added_images (call c b)
  = (added_images b
       ++ match c with Add_image p => [p] | _ => [] end)%list.
Proof.
  unfold added_images, call. cbn [calls]. rewrite omap_app.
  destruct c; reflexivity.
Qed.

Lemma add_source_selects_recent (source : string) (info : Source) (w : state) :
  sources (backend w) !! source = Some info ->
  recently_added_image w = Some (src_device info) ->
  current (source_list (state_of (add_source source w)))
  = Some (next_item (source_list w))
  /\ recently_added_image (state_of (add_source source w)) = None.
Proof.
  intros Hs Hr. unfold add_source, new_item. unfold_M.
  cbn [backend on_source_list set_mainWindow].
  rewrite Hs.
  cbn [recently_added_image on_source_list set_mainWindow]. rewrite Hr.
  rewrite String.eqb_refl. split; reflexivity.
Qed.

Lemma first_row_not_shown (p : QTreeWidgetItem -> bool) (l : list QTreeWidgetItem) :
  (forall item, In item l -> p item = false) -> first_row p l = None.
Proof.
  induction l as [|it l IH]; intros H; [reflexivity|]. cbn [first_row].
  rewrite (H it) by (left; reflexivity).
  rewrite IH; [reflexivity|]. intros item Hin. apply H. right. exact Hin.
Qed.

(** C6: with a file name chosen in the dialog, when some row's first column
    shows that name, [add_file_source_dialog] makes such a row the current
    one and returns without calling [add_image], the rows as they were;
    when no row shows the name it hands the name to [add_image], once, and
    remembers it, and the [source_added] callback of a source with that
    path then gives the list the row of that source, makes it the current
    one and forgets the name, without a further [add_image]; choosing the
    same file again then adds nothing. *)
Theorem add_file_source_dialog_idempotent :
  forall (filename : string) (w : state),
    filename <> "" ->
    ((exists item, In item (topLevelItems (source_list w)) /\ text0 item = filename) ->
     exists w' item',
       add_file_source_dialog filename w = Return tt w'
       /\ In item' (topLevelItems (source_list w))
       /\ text0 item' = filename
       /\ current (source_list w') = Some (item_id item')
       /\ topLevelItems (source_list w') = topLevelItems (source_list w)
       /\ added_images (backend w') = added_images (backend w))
    /\ ((forall item, In item (topLevelItems (source_list w)) ->
                      text0 item <> filename) ->
        exists w1,
          add_file_source_dialog filename w = Return tt w1
          /\ added_images (backend w1) = (added_images (backend w) ++ [filename])%list
          /\ topLevelItems (source_list w1) = topLevelItems (source_list w)
          /\ recently_added_image w1 = Some filename
          /\ forall source info,
               sources (backend w1) !! source = Some info ->
               src_device info = filename ->
               exists w2,
                 add_source source w1 = Return tt w2
                 /\ In (source_row (next_item (source_list w1)) source info)
                       (topLevelItems (source_list w2))
                 /\ length (topLevelItems (source_list w2))
                    = S (length (topLevelItems (source_list w1)))
                 /\ current (source_list w2) = Some (next_item (source_list w1))
                 /\ recently_added_image w2 = None
                 /\ added_images (backend w2) = added_images (backend w1)
                 /\ exists w3,
                      add_file_source_dialog filename w2 = Return tt w3
                      /\ added_images (backend w3) = added_images (backend w2)
                      /\ topLevelItems (source_list w3) = topLevelItems (source_list w2)).
Proof.
  intros filename w Hne.
  set (shows := fun item : QTreeWidgetItem => String.eqb (text0 item) filename).
  split.
  - intros (item & Hin & Ht).
    destruct (first_row_found shows (topLevelItems (source_list w)) item Hin)
      as (i & item' & Hf).
    { unfold shows. rewrite Ht. apply String.eqb_refl. }
    rewrite (add_file_listed filename w i item' Hne Hf).
    destruct (first_row_Some _ _ _ _ Hf) as [Hi Hp].
    eexists _, item'. split; [reflexivity|].
    split; [apply list_elem_of_In, list_elem_of_lookup; eauto|].
    split; [apply String.eqb_eq; exact Hp|]. repeat split.
  - intros Hnone.
    assert (Hf : first_row shows (topLevelItems (source_list w)) = None).
    { apply first_row_not_shown. intros item Hin. unfold shows.
      apply String.eqb_neq. apply Hnone. exact Hin. }
    rewrite (add_file_new filename w Hne Hf).
    eexists. split; [reflexivity|].
    split; [unfold on_backend; cbn [backend set_backend set_recently_added_image];
            apply added_images_call|].
    split; [reflexivity|]. split; [reflexivity|].
    intros source info Hs Hd.
    set (w1 := on_backend _ _) in *.
    destruct (add_source_known source info w1 Hs) as (Hr & Hb & _ & _ & Hi & _).
    destruct (add_source_selects_recent source info w1 Hs) as [Hc Hrec].
    { rewrite Hd. reflexivity. }
    assert (Hrow : In (source_row (next_item (source_list w1)) source info)
                      (topLevelItems (source_list (state_of (add_source source w1))))).
    { rewrite Hi. apply List.in_or_app. right. left. reflexivity. }
    exists (state_of (add_source source w1)).
    split; [exact Hr|]. split; [exact Hrow|].
    split; [rewrite Hi, List.length_app, List.length_map; cbn [length]; lia|].
    split; [exact Hc|]. split; [exact Hrec|]. split; [rewrite Hb; reflexivity|].
    destruct (first_row_found shows
                (topLevelItems (source_list (state_of (add_source source w1))))
                (source_row (next_item (source_list w1)) source info) Hrow)
      as (i & item & Hf').
    { unfold shows. cbn [source_row text0]. rewrite Hd. apply String.eqb_refl. }
    rewrite (add_file_listed filename _ i item Hne Hf').
    eexists. split; [reflexivity|]. split; reflexivity.
Qed.

(** The statement at the sample front-end, for the file it already lists. *)
Lemma add_file_source_dialog_idempotent_witness :
  "/home/u/a.iso" <> ""
  /\ exists w',
       add_file_source_dialog "/home/u/a.iso" demo_listed = Return tt w'
       /\ topLevelItems (source_list w') = topLevelItems (source_list demo_listed)
       /\ added_images (backend w') = added_images (backend demo_listed).
Proof.
  assert (Hne : "/home/u/a.iso" <> "") by discriminate.
  assert (Hin : exists item,
             In item (topLevelItems (source_list demo_listed))
             /\ text0 item = "/home/u/a.iso").
  { exists (source_row 0 "/home/u/a.iso"
              {| src_device := "/home/u/a.iso"; src_label := " Ubuntu 14.04 ";
                 src_size := 1000; src_type := SOURCE_ISO |}).
    split; [vm_compute; left; reflexivity|reflexivity]. }
  split; [exact Hne|].
  destruct (proj1 (add_file_source_dialog_idempotent
                     "/home/u/a.iso" demo_listed Hne) Hin)
    as (w' & item' & Hr & _ & _ & _ & Hi & Hb).
  exists w'. repeat split; assumption.
Defined.

(** ** Rows of the two lists under add and remove events *)

Lemma with_item_ids (u : nat) (f : QTreeWidgetItem -> QTreeWidgetItem)
    (tw : QTreeWidget) :
  (forall it, user_data (f it) = user_data it) ->
  List.map user_data (topLevelItems (with_item u f tw))
  = List.map user_data (topLevelItems tw).
Proof.
  intros Hf. unfold with_item. cbn [topLevelItems]. rewrite List.map_map.
  apply List.map_ext. intros it.
  destruct (Nat.eqb (item_id it) u); [apply Hf|reflexivity].
Qed.

Lemma add_target_ids (target : string) (w : state) :
  target_ids (state_of (add_target target w)) = (target_ids w ++ [target])%list.
Proof.
  unfold target_ids, add_target, new_item. unfold_M.
  cbn [backend on_dest_list set_mainWindow].
  destruct (targets (backend w) !! target) as [dev|];
    cbn [state_of dest_list on_dest_list set_mainWindow mainWindow
         set_ui_dest_list ui_dest_list];
    rewrite ?with_item_ids by reflexivity;
    rewrite select_first_items, with_item_ids by reflexivity;
    cbn [topLevelItems]; rewrite List.map_app; reflexivity.
Qed.

Lemma add_source_dest_list (source : string) (w : state) :
  dest_list (state_of (add_source source w)) = dest_list w.
Proof.
  unfold add_source, new_item. unfold_M.
  cbn [backend on_source_list set_mainWindow].
  destruct (sources (backend w) !! source) as [info|]; [|reflexivity].
  cbn [recently_added_image on_source_list set_mainWindow].
  destruct (recently_added_image w) as [recent|]; [|reflexivity].
  destruct (String.eqb (src_device info) recent); reflexivity.
Qed.

Lemma remove_source_dest_list (source : string) (w : state) :
  dest_list (state_of (remove_source source w)) = dest_list w.
Proof.
  unfold remove_source. unfold_M.
  destruct (first_row _ _) as [[i item]|]; reflexivity.
Qed.

(** [remove_source] keeps every row. *)
Lemma remove_source_ids (source : string) (w : state) :
  source_ids (state_of (remove_source source w)) = source_ids w.
Proof.
  unfold source_ids, remove_source. unfold_M.
  destruct (first_row _ _) as [[i item]|];
    cbn [state_of source_list on_source_list set_mainWindow mainWindow
         set_ui_source_list ui_source_list];
    rewrite select_first_items; [|reflexivity].
  unfold removeItemWidget. apply with_item_ids. reflexivity.
Qed.

Lemma first_row_None_ids (t : string) (l : list QTreeWidgetItem) :
  first_row (fun item => String.eqb (user_data item) t) l = None ->
  ~ In t (List.map user_data l).
Proof.
  induction l as [|it l IH]; simpl; [tauto|].
  destruct (String.eqb_spec (user_data it) t) as [|Hne]; [discriminate|].
  destruct (first_row _ l) as [[j x]|]; [discriminate|].
  intros _ [H|H]; [exact (Hne H)|exact (IH eq_refl H)].
Qed.

(** Taking the first row of id [t] removes the first occurrence of [t] from
    the ids. *)
Lemma first_row_remove_ids (t : string) (l : list QTreeWidgetItem)
    (i : nat) (item : QTreeWidgetItem) :
  first_row (fun item => String.eqb (user_data item) t) l = Some (i, item) ->
  exists before after,
    List.map user_data l = (before ++ t :: after)%list
    /\ List.map user_data (remove_row i l) = (before ++ after)%list.
Proof.
  revert i. induction l as [|it l IH]; intros i; simpl; [discriminate|].
  destruct (String.eqb_spec (user_data it) t) as [He|Hne].
  - intros [= <- <-]. exists [], (List.map user_data l). rewrite He. split; reflexivity.
  - destruct (first_row _ l) as [[j x]|]; [|discriminate].
    intros [= <- <-]. destruct (IH j eq_refl) as (before & after & H1 & H2).
    exists (user_data it :: before), after. simpl. rewrite H1, H2. split; reflexivity.
Qed.

Lemma remove_target_ids (target : string) (w : state) :
  List.NoDup (target_ids w) ->
  List.NoDup (target_ids (state_of (remove_target target w)))
  /\ ~ In target (target_ids (state_of (remove_target target w))).
Proof.
  intros Hnd. unfold target_ids in *. unfold remove_target. unfold_M.
  destruct (first_row _ _) as [[i item]|] eqn:Hf;
    cbn [state_of dest_list on_dest_list set_mainWindow mainWindow
         set_ui_dest_list ui_dest_list];
    rewrite select_first_items.
  - unfold takeTopLevelItem. cbn [topLevelItems].
    destruct (first_row_remove_ids _ _ _ _ Hf) as (before & after & H1 & H2).
    fold (dest_list w) in *. rewrite H2. rewrite H1 in Hnd.
    apply List.NoDup_remove in Hnd. exact Hnd.
  - split; [exact Hnd|]. apply first_row_None_ids. exact Hf.
Qed.

Lemma deliver_all_snoc (evs : list list_event) (ev : list_event) (w : state) :
  deliver_all (evs ++ [ev]) w = state_of (deliver ev (deliver_all evs w)).
Proof. unfold deliver_all. rewrite fold_left_app. reflexivity. Qed.

Lemma deliver_keeps_NoDup (ev : list_event) (w : state) :
  List.NoDup (target_ids w) ->
  match ev with Target_added id => ~ In id (target_ids w) | _ => True end ->
  List.NoDup (target_ids (state_of (deliver ev w))).
Proof.
  intros Hnd Hfresh. destruct ev as [id|id|id|id]; cbn [deliver].
  - unfold target_ids. rewrite add_source_dest_list. exact Hnd.
  - unfold target_ids. rewrite remove_source_dest_list. exact Hnd.
  - rewrite add_target_ids. apply List.NoDup_app.
    + exact Hnd.
    + repeat constructor. simpl. tauto.
    + intros x Hx [<-|[]]. exact (Hfresh Hx).
  - apply remove_target_ids. exact Hnd.
Qed.

Lemma deliver_all_NoDup (evs : list list_event) :
  forall w, List.NoDup (target_ids w) -> targets_added_fresh evs w ->
            List.NoDup (target_ids (deliver_all evs w)).
Proof.
  induction evs as [|ev evs IH]; intros w Hnd Hfresh; [exact Hnd|].
  destruct Hfresh as [Hev Hrest]. cbn [deliver_all fold_left].
  apply IH; [|exact Hrest]. apply deliver_keeps_NoDup; assumption.
Qed.

(** C5, as the code has it, for the destinations list: along every
    sequence of add and remove events in which a target is announced only
    while the list shows no row for its id, no id is ever shown twice, and
    once the removal event of an id is processed the list shows no row for
    that id. *)
Theorem removed_target_leaves_destinations_list :
  forall (evs : list list_event) (w : state),
    List.NoDup (target_ids w) ->
    targets_added_fresh evs w ->
    List.NoDup (target_ids (deliver_all evs w))
    /\ (forall pre id,
          evs = (pre ++ [Target_removed id])%list ->
          ~ In id (target_ids (deliver_all evs w)))
    /\ (forall pre post,
          evs = (pre ++ post)%list ->
          List.NoDup (target_ids (deliver_all pre w))).
Proof.
  intros evs w Hnd Hfresh.
  assert (Hprefix : forall pre post, evs = (pre ++ post)%list ->
            List.NoDup (target_ids (deliver_all pre w))).
  { intros pre post ->. clear - Hnd Hfresh. revert w Hnd Hfresh.
    induction pre as [|ev pre IH]; intros w Hnd Hfresh; [exact Hnd|].
    destruct Hfresh as [Hev Hrest]. cbn [deliver_all fold_left].
    apply IH; [|exact Hrest]. apply deliver_keeps_NoDup; assumption. }
  split; [apply deliver_all_NoDup; assumption|]. split; [|exact Hprefix].
  intros pre id ->. rewrite deliver_all_snoc. cbn [deliver].
  apply remove_target_ids. apply (Hprefix pre [Target_removed id]). reflexivity.
Qed.

(** The statement at the sample front-end, for two targets of which the first is removed. *)
Lemma removed_target_leaves_destinations_list_witness :
  target_ids (deliver_all [Target_added "/dev/sdb"; Source_added "/home/u/a.iso";
                           Target_added "/dev/sdc"; Target_removed "/dev/sdb"]
                          demo_start) = ["/dev/sdc"]
  /\ ~ In "/dev/sdb"
        (target_ids (deliver_all [Target_added "/dev/sdb"; Source_added "/home/u/a.iso";
                                  Target_added "/dev/sdc"; Target_removed "/dev/sdb"]
                                 demo_start)).
Proof.
  assert (Hnd : List.NoDup (target_ids demo_start)) by constructor.
  assert (Hfresh : targets_added_fresh
                     [Target_added "/dev/sdb"; Source_added "/home/u/a.iso";
                      Target_added "/dev/sdc"; Target_removed "/dev/sdb"]
                     demo_start).
  { vm_compute. repeat split; try tauto. intros [H|[]]. discriminate H. }
  split; [vm_compute; reflexivity|].
  exact (proj1 (proj2 (removed_target_leaves_destinations_list _ demo_start Hnd Hfresh))
               [Target_added "/dev/sdb"; Source_added "/home/u/a.iso";
                Target_added "/dev/sdc"]
               "/dev/sdb" eq_refl).
Defined.

(** C5 as stated fails on the code: a target announced twice is shown
    twice, and its removal then takes one of the two rows only; and the
    removal of a source leaves its row in the sources list. *)
Lemma removed_id_can_remain_listed :
  target_ids (deliver_all [Target_added "/dev/sdb"; Target_added "/dev/sdb"]
                          demo_start) = ["/dev/sdb"; "/dev/sdb"]
  /\ target_ids (deliver_all [Target_added "/dev/sdb"; Target_added "/dev/sdb";
                             Target_removed "/dev/sdb"] demo_start) = ["/dev/sdb"]
  /\ source_ids (deliver_all [Source_added "/home/u/a.iso";
                             Source_removed "/home/u/a.iso"] demo_start)
     = ["/home/u/a.iso"].
Proof. repeat split; vm_compute; reflexivity. Qed.

(** ** The queue between the backend thread and the consumer *)

Lemma callback_puts (c : closure) (w : state) :
  callback c w = Return PyNone (set_queue (put c (queue w)) w).
Proof. destruct c; reflexivity. Qed.

(** A queued method neither reads nor writes the queue. *)
Lemma apply_closure_set_queue (res : StandardButton) (c : closure)
    (q : Queue) (w : state) :
  apply_closure res c (set_queue q w)
  = match apply_closure res c w with
    | Return v w1 => Return v (set_queue q w1)
    | Raise e w1 => Raise e (set_queue q w1)
    end.
Proof.
  destruct c as [complete|message|message| |message]; cbn [apply_closure];
    try reflexivity.
  unfold Body.progress. cbn [progress_bar set_queue].
  destruct (negb (isHidden (progress_bar w))); [|reflexivity].
  destruct (py_int _) as [e|value]; [reflexivity|].
  destruct (fits_c_int value); [|reflexivity].
  unfold_M. cbn. destruct (num_eq _ 100); reflexivity.
Qed.

(** Running a closure leaves the queue and the timer of the consumer alone,
    and it raises only to end the process. *)
Lemma apply_closure_frame (res : StandardButton) (c : closure) (w : state) :
  queue (state_of (apply_closure res c w)) = queue w
  /\ queue_processor (state_of (apply_closure res c w)) = queue_processor w
  /\ (raised (apply_closure res c w) = None
      \/ exists e, raised (apply_closure res c w) = Some e /\ ends_process e).
Proof.
  unfold ends_process.
  destruct c as [complete|message|message| |message]; cbn [apply_closure].
  - unfold Body.progress. destruct (negb (isHidden (progress_bar w)));
      [|repeat split; left; reflexivity].
    destruct (py_int _) as [e|value] eqn:Hint.
    + repeat split. right. exists e. split; [reflexivity|].
      destruct (if num_gt complete 100 then PyInt 100 else complete);
        cbn [py_int] in Hint; try discriminate; injection Hint as <-; tauto.
    + destruct (fits_c_int value).
      * unfold_M. cbn [state_of]. destruct (num_eq _ 100);
          repeat split; left; reflexivity.
      * repeat split. right. exists OverflowError. split; [reflexivity|tauto].
  - repeat split. left. reflexivity.
  - repeat split. right. exists (SystemExit 1). split; [reflexivity|]. left. eauto.
  - repeat split. right. exists (SystemExit 0). split; [reflexivity|]. left. eauto.
  - repeat split. left. reflexivity.
Qed.

Lemma test_func_empty (res : StandardButton) (w : state) :
  items (queue w) = [] -> test_func res w = Return (PyBool true) w.
Proof. intros Hq. unfold test_func, empty. rewrite Hq. reflexivity. Qed.

Lemma test_func_cons (res : StandardButton) (w : state) (c : closure)
    (rest : list closure) :
  items (queue w) = c :: rest ->
  test_func res w
  = match apply_closure res c
            (set_queue {| items := rest;
                          unfinished_tasks := unfinished_tasks (queue w) |} w) with
    | Return _ w1 => Return (PyBool true) (set_queue (task_done (queue w1)) w1)
    | Raise e w1 => Raise e w1
    end.
Proof.
  intros Hq. unfold test_func, empty, get_nowait. rewrite Hq. cbn [negb].
  unfold_M. destruct (apply_closure res c _); reflexivity.
Qed.

(** A firing of the running queue processor calls the method of the closure
    at the head of the queue, on the state with the head taken, and then
    reports the task done; on an empty queue it does nothing. *)
Lemma timer_fires_head (res : StandardButton) (w : state) (c : closure)
    (rest : list closure) :
  isActive (queue_processor w) = true ->
  items (queue w) = c :: rest ->
  queue_processor_timeout res w
  = match apply_closure res c
            (set_queue {| items := rest;
                          unfinished_tasks := unfinished_tasks (queue w) |} w) with
    | Return _ w1 => Return tt (set_queue (task_done (queue w1)) w1)
    | Raise e w1 => Raise e w1
    end.
Proof.
  intros Hact Hq. unfold queue_processor_timeout. rewrite Hact.
  unfold __timeout_callback, bind. rewrite (test_func_cons res w c rest Hq).
  destruct (apply_closure res c _); reflexivity.
Qed.







Lemma set_queue_set_queue (q q' : Queue) (w : state) :
  set_queue q (set_queue q' w) = set_queue q w.
Proof. reflexivity. Qed.








(** * Further properties of the front-end *)

(** ** Construction *)

Lemma fold_add_image_calls (isos : list string) :
  forall b,
    calls (fold_left (fun b iso => call (Add_image iso) b) isos b)
    = (calls b ++ List.map Add_image isos)%list
    /\ sources (fold_left (fun b iso => call (Add_image iso) b) isos b) = sources b
    /\ targets (fold_left (fun b iso => call (Add_image iso) b) isos b) = targets b
    /\ current_source (fold_left (fun b iso => call (Add_image iso) b) isos b)
       = current_source b.
Proof.
  induction isos as [|iso isos IH]; intros b; cbn [fold_left List.map].
  - rewrite app_nil_r. repeat split.
  - destruct (IH (call (Add_image iso) b)) as (Hc & Hs & Ht & Hcur).
    rewrite Hc, Hs, Ht, Hcur. cbn [call calls sources targets current_source].
    rewrite <- app_assoc. repeat split.
Qed.

(** X1: the constructor makes its calls to the backend in a fixed order:
    [add_image] for [img] unless [img] is [None] (so also for the empty
    string, for which the source widgets stay shown), then [add_image] for
    every [*.iso] of the download directory in the order found, then
    [detect_devices]. *)
Theorem init_calls_backend_in_order :
  forall (b : Backend) (img : pyobj) (allow : bool) (isos : list string),
    calls (backend (__init__ b img allow isos))
    = (calls b ++ startup_calls img isos)%list
    /\ calls (backend (__init__ b default_img allow isos))
       = (calls b ++ List.map Add_image isos ++ [Detect_devices])%list
    /\ (calls (backend (__init__ b empty_str allow isos))
        = (calls b ++ Add_image "" :: List.map Add_image isos ++ [Detect_devices])%list
        /\ ui_source_list_hidden (mainWindow (__init__ b empty_str allow isos)) = false).
Proof.
  intros b img allow isos.
  assert (H : forall i,
    calls (backend (__init__ b i allow isos)) = (calls b ++ startup_calls i isos)%list).
  { intros i. unfold __init__, startup_calls. destruct (__initUI i) as [m p].
    cbn [backend call calls].
    destruct (fold_add_image_calls isos
                (if is_not i None_ then call (Add_image (text_type (obj_val i))) b
                 else b)) as (Hc & _).
    rewrite Hc. destruct (is_not i None_); cbn [call calls];
      rewrite <- ?app_assoc; reflexivity. }
  split; [exact (H img)|]. split; [exact (H default_img)|].
  split; [exact (H empty_str)|reflexivity].
Qed.

(** ** The refresh loop *)

Lemma update_loop_timeout_stopped (answer : pyval) (w : state) :
  isActive (update_loop w) = false ->
  update_loop_timeout answer w = Return tt w.
Proof. intros H. unfold update_loop_timeout. rewrite H. reflexivity. Qed.

Lemma refresh_stopped (answers : list pyval) (w : state) :
  isActive (update_loop w) = false -> refresh answers w = w.
Proof.
  intros H. unfold refresh. induction answers as [|a answers IH]; [reflexivity|].
  cbn [fold_left]. rewrite (update_loop_timeout_stopped a w H). exact IH.
Qed.

(** X3: a firing of the running refresh loop calls [backend.update_free]
    once, raises nothing, and leaves the loop running exactly when the
    answer is a true value; after a false answer (for instance [None]) the
    loop is stopped for good: no later firing does anything. *)
Theorem update_loop_stops_on_false_answer :
  forall (answer : pyval) (w : state),
    isActive (update_loop w) = true ->
    let w' := state_of (update_loop_timeout answer w) in
    raised (update_loop_timeout answer w) = None
    /\ calls (backend w') = (calls (backend w) ++ [Update_free])%list
    /\ isActive (update_loop w') = truthy answer
    /\ interval (update_loop w') = interval (update_loop w)
    /\ (truthy answer = false -> forall answers, refresh answers w' = w').
Proof.
  intros answer w Hact. cbv zeta.
  assert (E : update_loop_timeout answer w
              = Return tt
                  (if truthy answer then on_backend (call Update_free) w
                   else set_update_loop (stop (update_loop w))
                          (on_backend (call Update_free) w))).
  { unfold update_loop_timeout, __timeout_callback. rewrite Hact. unfold_M.
    cbn. destruct (truthy answer); reflexivity. }
  rewrite E. cbn [raised state_of].
  destruct (truthy answer) eqn:Ht.
  - repeat split; try assumption. discriminate.
  - repeat split. intros _ answers. apply refresh_stopped. reflexivity.
Qed.

(** The statement at the sample front-end, [update_free] answering [None]. *)
Lemma update_loop_stops_on_false_answer_witness :
  isActive (update_loop demo_listed) = true
  /\ isActive (update_loop (state_of (update_loop_timeout PyNone demo_listed))) = false.
Proof.
  split; [reflexivity|].
  exact (proj1 (proj2 (proj2 (update_loop_stops_on_false_answer
                                PyNone demo_listed eq_refl)))).
Defined.

(** ** Ending the process *)

(** X4: [__fail] always ends the process with exit status 1 after hiding
    the progress dialog and showing exactly one error box; the box shows
    the message given, or "Installation failed." when the message is
    [None] or empty; the backend is not told (no [shutdown], no
    [cancel_install]).  A queued [failure] does the same when it is run.
    [startup_failure] shows its message as it is, even an empty one. *)
Theorem fail_exits_with_status_1 :
  forall (message : option string) (w : state),
    raised (__fail message w) = Some (SystemExit 1)
    /\ dialogs (state_of (__fail message w))
       = (dialogs w ++ [Critical (failure_text message)])%list
    /\ isHidden (progress_bar (state_of (__fail message w))) = true
    /\ backend (state_of (__fail message w)) = backend w
    /\ (failure_text None = "Installation failed."
        /\ failure_text (Some "") = "Installation failed."
        /\ forall m, m <> "" -> failure_text (Some m) = m)
    /\ (forall res,
          raised (apply_closure res (call_failure message) w) = Some (SystemExit 1)
          /\ state_of (apply_closure res (call_failure message) w)
             = state_of (__fail message w))
    /\ (forall m,
          raised (startup_failure m w) = Some (SystemExit 1)
          /\ dialogs (state_of (startup_failure m w)) = (dialogs w ++ [Critical m])%list
          /\ progress_bar (state_of (startup_failure m w)) = progress_bar w).
Proof.
  intros message w.
  assert (E : __fail message w
              = Raise (SystemExit 1)
                  (show_dialog (Critical (failure_text message))
                     (on_progress_bar pd_hide w))).
  { unfold __fail, failure_text. unfold_M. cbn.
    destruct message as [m|]; [destruct (str_truthy m)|]; reflexivity. }
  rewrite E. cbn [raised state_of]. repeat split.
  - intros m Hm. unfold failure_text. apply str_truthy_true in Hm.
    rewrite Hm. reflexivity.
Qed.

(** X5: when the queue processor fires with a [success] at the head of
    the queue, the progress dialog is hidden, the completion box is shown,
    [backend.shutdown] is called once and the process ends with exit status
    0; the lists are untouched, the closures queued behind it are never
    run, and [task_done] is not reached. *)
Theorem queued_success_shuts_backend_down_and_exits_0 :
  forall (rest : list closure) (res : StandardButton) (w : state),
    isActive (queue_processor w) = true ->
    items (queue w) = call_success :: rest ->
    let o := queue_processor_timeout res w in
    raised o = Some (SystemExit 0)
    /\ dialogs (state_of o) = (dialogs w ++ [Information completion_text])%list
    /\ calls (backend (state_of o)) = (calls (backend w) ++ [Shutdown])%list
    /\ isHidden (progress_bar (state_of o)) = true
    /\ mainWindow (state_of o) = mainWindow w
    /\ items (queue (state_of o)) = rest
    /\ unfinished_tasks (queue (state_of o)) = unfinished_tasks (queue w)
    /\ forall acts,
         executed (Timer_fires res :: acts) w = [call_success]
         /\ raised (final (Timer_fires res :: acts) w) = Some (SystemExit 0).
Proof.
  intros rest res w Hact Hq. cbv zeta.
  assert (E : queue_processor_timeout res w
              = Raise (SystemExit 0)
                  (on_backend (call Shutdown)
                     (show_dialog (Information completion_text)
                        (on_progress_bar pd_hide
                           (set_queue
                              {| items := rest;
                                 unfinished_tasks := unfinished_tasks (queue w) |}
                              w))))).
  { unfold queue_processor_timeout. rewrite Hact.
    unfold __timeout_callback, bind. unfold test_func, empty, get_nowait.
    rewrite Hq. reflexivity. }
  rewrite E. cbn [raised state_of]. repeat split.
  - unfold executed. cbn [run]. rewrite E. unfold executed_by_timer.
    rewrite Hact, Hq. reflexivity.
  - unfold final. cbn [run]. rewrite E. reflexivity.
Qed.

(** The statement at the sample installation, once the backend has
    reported success. *)
Lemma queued_success_shuts_backend_down_and_exits_0_witness :
  raised (queue_processor_timeout Yes (state_of (success tt demo_installing)))
  = Some (SystemExit 0).
Proof.
  exact (proj1 (queued_success_shuts_backend_down_and_exits_0
                  [] Yes (state_of (success tt demo_installing)) eq_refl eq_refl)).
Defined.

(** ** Rows added by the callbacks *)

Lemma add_target_outcome (target : string) (w : state) :
  let new := next_item (dest_list w) in
  let w' := state_of (add_target target w) in
  exists rows row,
    topLevelItems (dest_list w') = (rows ++ [row])%list
    /\ List.map user_data rows = target_ids w
    /\ backend w' = backend w
    /\ source_list w' = source_list w
    /\ match targets (backend w) !! target with
       | Some dev =>
           add_target target w = Return tt w' /\ row = target_row new target dev
       | None =>
           add_target target w = Raise (KeyError target) w'
           /\ row = bare_row new target "drive-removable-media-usb-pendrive"
       end.
Proof.
  cbv zeta. unfold target_ids, add_target, new_item. unfold_M.
  cbn [backend on_dest_list set_mainWindow].
  destruct (targets (backend w) !! target) as [dev|];
    cbn [state_of dest_list on_dest_list set_mainWindow mainWindow
         set_ui_dest_list ui_dest_list].
  - unfold with_item at 1. cbn [topLevelItems]. rewrite select_first_items.
    unfold with_item. cbn [topLevelItems]. rewrite !List.map_app.
    cbn [List.map blank_item item_id]. rewrite Nat.eqb_refl.
    cbn [item_id setIcon setText0]. rewrite Nat.eqb_refl.
    eexists _, _. split; [reflexivity|].
    split; [|repeat split].
    rewrite !List.map_map. apply List.map_ext. intros it.
    destruct (Nat.eqb (item_id it) _) eqn:E;
      cbn [item_id setIcon setText0]; rewrite ?E; reflexivity.
  - rewrite select_first_items. unfold with_item. cbn [topLevelItems].
    rewrite !List.map_app. cbn [List.map blank_item item_id]. rewrite Nat.eqb_refl.
    eexists _, _. split; [reflexivity|].
    split; [|repeat split].
    rewrite !List.map_map. apply List.map_ext. intros it.
    destruct (Nat.eqb (item_id it) _); reflexivity.
Qed.

Lemma add_source_unknown (source : string) (w : state) :
  sources (backend w) !! source = None ->
  let w' := state_of (add_source source w) in
  add_source source w = Raise (KeyError source) w'
  /\ exists rows,
       topLevelItems (source_list w')
       = (rows ++ [bare_row (next_item (source_list w)) source "media-optical"])%list
       /\ List.map user_data rows = source_ids w
       /\ recently_added_image w' = recently_added_image w
       /\ backend w' = backend w
       /\ dest_list w' = dest_list w.
Proof.
  intros Hs. cbv zeta. unfold source_ids, add_source, new_item. unfold_M.
  cbn [backend on_source_list set_mainWindow]. rewrite Hs.
  split; [reflexivity|].
  cbn [state_of source_list on_source_list set_mainWindow mainWindow
       set_ui_source_list ui_source_list].
  rewrite select_first_items. unfold with_item. cbn [topLevelItems].
  rewrite !List.map_app. cbn [List.map blank_item item_id]. rewrite Nat.eqb_refl.
  eexists. split; [reflexivity|]. split; [|repeat split].
  rewrite !List.map_map. apply List.map_ext. intros it.
  destruct (Nat.eqb (item_id it) _); reflexivity.
Qed.

(** ** Removal *)

Lemma remove_row_first_ids (t : string) (l : list QTreeWidgetItem) :
  List.map user_data
    (match first_row (fun item => String.eqb (user_data item) t) l with
     | Some (i, _) => remove_row i l
     | None => l
     end)
  = remove_first t (List.map user_data l).
Proof.
  induction l as [|it l IH]; [reflexivity|].
  cbn [first_row List.map remove_first].
  destruct (String.eqb (user_data it) t); [reflexivity|].
  destruct (first_row _ l) as [[j x]|]; cbn [remove_row List.map];
    rewrite <- IH; reflexivity.
Qed.

Lemma remove_target_ids_general (target : string) (w : state) :
  target_ids (state_of (remove_target target w))
  = remove_first target (target_ids w).
Proof.
  unfold target_ids. rewrite <- remove_row_first_ids.
  unfold remove_target. unfold_M. fold (dest_list w).
  destruct (first_row _ _) as [[i item]|];
    cbn [state_of dest_list on_dest_list set_mainWindow mainWindow
         set_ui_dest_list ui_dest_list];
    rewrite select_first_items; reflexivity.
Qed.

Lemma first_row_unlisted (t : string) (l : list QTreeWidgetItem) :
  ~ In t (List.map user_data l) ->
  first_row (fun item => String.eqb (user_data item) t) l = None.
Proof.
  induction l as [|it l IH]; [reflexivity|]. cbn [List.map first_row].
  intros Hn. destruct (String.eqb_spec (user_data it) t) as [He|_].
  - exfalso. apply Hn. left. exact He.
  - rewrite IH; [reflexivity|]. intros H. apply Hn. right. exact H.
Qed.

Lemma remove_first_snoc (t : string) (l : list string) :
  ~ In t l -> remove_first t (l ++ [t]) = l.
Proof.
  induction l as [|x l IH]; cbn [app remove_first]; intros Hn.
  - rewrite String.eqb_refl. reflexivity.
  - destruct (String.eqb_spec x t) as [He|_].
    + exfalso. apply Hn. left. exact He.
    + rewrite IH; [reflexivity|]. intros H. apply Hn. right. exact H.
Qed.

(** X8: for an id the destinations list does not show, [remove_target]
    raises nothing and leaves every row as it is, and announcing the id
    and then removing it brings the shown ids back to what they were. *)
Theorem remove_target_undoes_add_target :
  forall (target : string) (w : state),
    ~ In target (target_ids w) ->
    raised (remove_target target w) = None
    /\ topLevelItems (dest_list (state_of (remove_target target w)))
       = topLevelItems (dest_list w)
    /\ target_ids (state_of (remove_target target (state_of (add_target target w))))
       = target_ids w.
Proof.
  intros target w Hn. split; [reflexivity|]. split.
  - unfold remove_target. unfold_M. fold (dest_list w).
    rewrite (first_row_unlisted target _ Hn).
    cbn [state_of dest_list on_dest_list set_mainWindow mainWindow
         set_ui_dest_list ui_dest_list].
    apply select_first_items.
  - rewrite remove_target_ids_general, add_target_ids.
    apply remove_first_snoc. exact Hn.
Qed.

(** The statement at the sample front-end, which lists one target. *)
Lemma remove_target_undoes_add_target_witness :
  ~ In "/dev/sdc" (target_ids demo_listed)
  /\ target_ids (state_of (remove_target "/dev/sdc"
                   (state_of (add_target "/dev/sdc" demo_listed))))
     = target_ids demo_listed.
Proof.
  assert (Hn : ~ In "/dev/sdc" (target_ids demo_listed)).
  { vm_compute. intros [H|[]]. discriminate H. }
  split; [exact Hn|].
  exact (proj2 (proj2 (remove_target_undoes_add_target "/dev/sdc" demo_listed Hn))).
Defined.

(** ** The ids shown, along a sequence of events *)

Lemma add_source_ids (source : string) (w : state) :
  source_ids (state_of (add_source source w)) = (source_ids w ++ [source])%list.
Proof.
  destruct (sources (backend w) !! source) as [info|] eqn:Hs.
  - destruct (add_source_known source info w Hs) as (_ & _ & _ & _ & Hi & _).
    unfold source_ids. rewrite Hi, List.map_app, List.map_map. f_equal.
    apply List.map_ext. intros it. unfold restyle_source.
    destruct (Nat.eqb (item_id it) _); reflexivity.
  - destruct (add_source_unknown source w Hs) as (_ & rows & Hi & Hids & _).
    unfold source_ids in *. rewrite Hi, List.map_app, Hids. reflexivity.
Qed.

Lemma add_target_source_list (target : string) (w : state) :
  source_list (state_of (add_target target w)) = source_list w.
Proof.
  destruct (add_target_outcome target w) as (_ & _ & _ & _ & _ & Hs & _).
  exact Hs.
Qed.

Lemma remove_target_source_list (target : string) (w : state) :
  source_list (state_of (remove_target target w)) = source_list w.
Proof.
  unfold remove_target. unfold_M.
  destruct (first_row _ _) as [[i item]|]; reflexivity.
Qed.

(** ** The current row *)

Lemma item_by_id_In (u : nat) (l : list QTreeWidgetItem) (item : QTreeWidgetItem) :
  item_by_id u l = Some item -> In item l /\ item_id item = u.
Proof.
  unfold item_by_id. intros H. apply List.find_some in H.
  destruct H as [Hin He]. split; [exact Hin|]. apply Nat.eqb_eq. exact He.
Qed.

Lemma item_by_id_found (u : nat) (l : list QTreeWidgetItem) (x : QTreeWidgetItem) :
  In x l -> item_id x = u -> exists item, item_by_id u l = Some item /\ In item l.
Proof.
  intros Hin Hid. unfold item_by_id.
  destruct (List.find _ l) as [item|] eqn:Hf.
  - exists item. split; [reflexivity|]. apply List.find_some in Hf. tauto.
  - exfalso. apply (List.find_none _ _ Hf) in Hin.
    rewrite Hid, Nat.eqb_refl in Hin. discriminate.
Qed.

Lemma select_first_has_current (tw : QTreeWidget) :
  has_current (select_first_if_none tw).
Proof.
  unfold has_current, select_first_if_none.
  destruct (currentItem tw) as [item|] eqn:Hc.
  - intros _. exists item. split; [exact Hc|].
    unfold currentItem in Hc. destruct (current tw) as [u|]; [|discriminate].
    apply (item_by_id_In u _ _ Hc).
  - unfold topLevelItem. destruct (topLevelItems tw) as [|x r] eqn:Hl.
    + cbn. rewrite Hl. intros H. exfalso. apply H. reflexivity.
    + cbn [lookup list_lookup]. intros _. exists x.
      unfold currentItem, setCurrentItem, item_by_id. cbn [current topLevelItems].
      rewrite Hl. cbn [List.find]. rewrite Nat.eqb_refl.
      split; [reflexivity|left; reflexivity].
Qed.

Lemma with_item_has_current (u : nat) (f : QTreeWidgetItem -> QTreeWidgetItem)
    (tw : QTreeWidget) :
  (forall it, item_id (f it) = item_id it) ->
  has_current tw -> has_current (with_item u f tw).
Proof.
  intros Hf Hc Hne. unfold with_item in *. cbn [topLevelItems] in Hne.
  destruct Hc as (item & Hcur & Hin).
  { intros E. apply Hne. rewrite E. reflexivity. }
  unfold currentItem in *. cbn [current topLevelItems].
  destruct (current tw) as [v|]; [|discriminate].
  destruct (item_by_id_In v _ _ Hcur) as [_ Hid].
  apply (item_by_id_found v _
           ((fun it => if Nat.eqb (item_id it) u then f it else it) item)).
  - exact (List.in_map
             (fun it => if Nat.eqb (item_id it) u then f it else it) _ item Hin).
  - cbn beta. destruct (Nat.eqb (item_id item) u); [rewrite Hf|]; exact Hid.
Qed.

Lemma setCurrentItem_has_current (u : nat) (tw : QTreeWidget) (x : QTreeWidgetItem) :
  In x (topLevelItems tw) -> item_id x = u -> has_current (setCurrentItem u tw).
Proof.
  intros Hin Hid _. unfold currentItem, setCurrentItem. cbn [current topLevelItems].
  apply (item_by_id_found u _ x Hin Hid).
Qed.

Lemma add_target_has_current (target : string) (w : state) :
  has_current (dest_list (state_of (add_target target w))).
Proof.
  unfold add_target, new_item. unfold_M.
  cbn [backend on_dest_list set_mainWindow].
  destruct (targets (backend w) !! target) as [dev|];
    cbn [state_of dest_list on_dest_list set_mainWindow mainWindow
         set_ui_dest_list ui_dest_list].
  - apply with_item_has_current; [reflexivity|]. apply select_first_has_current.
  - apply select_first_has_current.
Qed.

Lemma remove_target_has_current (target : string) (w : state) :
  has_current (dest_list (state_of (remove_target target w))).
Proof.
  unfold remove_target. unfold_M.
  destruct (first_row _ _) as [[i item]|];
    cbn [state_of dest_list on_dest_list set_mainWindow mainWindow
         set_ui_dest_list ui_dest_list];
    apply select_first_has_current.
Qed.

Lemma remove_source_has_current (source : string) (w : state) :
  has_current (source_list (state_of (remove_source source w))).
Proof.
  unfold remove_source. unfold_M.
  destruct (first_row _ _) as [[i item]|];
    cbn [state_of source_list on_source_list set_mainWindow mainWindow
         set_ui_source_list ui_source_list];
    apply select_first_has_current.
Qed.

Lemma add_source_has_current (source : string) (w : state) :
  has_current (source_list (state_of (add_source source w))).
Proof.
  unfold add_source, new_item. unfold_M.
  cbn [backend on_source_list set_mainWindow].
  destruct (sources (backend w) !! source) as [info|];
    [|cbn [state_of source_list on_source_list set_mainWindow mainWindow
           set_ui_source_list ui_source_list];
      apply select_first_has_current].
  cbn [recently_added_image on_source_list set_mainWindow].
  assert (Hbase : has_current
    (with_item (next_item (source_list w))
       (fun it => setToolTip2 (setText2 (src_size info)
          (setToolTip1 (setText1 (strip (src_label info))
             (setToolTip0 (setText0 (src_device info) it))))))
       (select_first_if_none
          (with_item (next_item (source_list w))
             (fun it => setIcon "media-optical" (setText0 source it))
             {| topLevelItems :=
                  topLevelItems (source_list w)
                  ++ [blank_item (next_item (source_list w)) source];
                current := current (source_list w);
                next_item := S (next_item (source_list w)) |})))).
  { apply with_item_has_current; [reflexivity|]. apply select_first_has_current. }
  destruct (recently_added_image w) as [recent|]; [|exact Hbase].
  destruct (String.eqb (src_device info) recent); [|exact Hbase].
  cbn [state_of source_list on_source_list set_mainWindow mainWindow
       set_ui_source_list ui_source_list set_recently_added_image].
  apply (setCurrentItem_has_current _ _
           (source_row (next_item (source_list w)) source info));
    [|reflexivity].
  unfold with_item at 1. cbn [topLevelItems]. rewrite select_first_items.
  unfold with_item. cbn [topLevelItems]. rewrite !List.map_app.
  apply List.in_or_app. right.
  cbn [List.map blank_item item_id]. rewrite Nat.eqb_refl.
  cbn [item_id setIcon setText0]. rewrite Nat.eqb_refl. left. reflexivity.
Qed.

Lemma deliver_has_current (ev : list_event) (w : state) :
  has_current (source_list w) -> has_current (dest_list w) ->
  has_current (source_list (state_of (deliver ev w)))
  /\ has_current (dest_list (state_of (deliver ev w))).
Proof.
  intros Hs Hd. destruct ev as [id|id|id|id]; cbn [deliver].
  - split; [apply add_source_has_current|]. rewrite add_source_dest_list. exact Hd.
  - split; [apply remove_source_has_current|].
    rewrite remove_source_dest_list. exact Hd.
  - split; [|apply add_target_has_current]. rewrite add_target_source_list. exact Hs.
  - split; [|apply remove_target_has_current].
    rewrite remove_target_source_list. exact Hs.
Qed.

Lemma has_current_selected (tw : QTreeWidget) :
  has_current tw -> topLevelItems tw <> [] ->
  In (match currentItem tw with Some item => user_data item | None => "" end)
     (List.map user_data (topLevelItems tw)).
Proof.
  intros Hc Hne. destruct (Hc Hne) as (item & -> & Hin).
  apply List.in_map. exact Hin.
Qed.

(** X10: the callbacks keep a selection whenever there is something to
    select.  Starting from lists that have a current row when they have
    rows (as the empty lists of a new front-end do), after any sequence of
    add and remove events each list that has rows has a current row, so
    [get_source] and [get_target] then answer the id of a row that is
    shown, never the empty "nothing selected" answer by default. *)
Theorem lists_with_rows_have_a_selection :
  forall (evs : list list_event) (w : state),
    has_current (source_list w) -> has_current (dest_list w) ->
    let w' := deliver_all evs w in
    has_current (source_list w') /\ has_current (dest_list w')
    /\ (source_ids w' <> [] -> In (get_source w') (source_ids w'))
    /\ (target_ids w' <> [] -> In (get_target w') (target_ids w')).
Proof.
  intros evs w Hs Hd. cbv zeta.
  assert (H : has_current (source_list (deliver_all evs w))
              /\ has_current (dest_list (deliver_all evs w))).
  { revert w Hs Hd. induction evs as [|ev evs IH]; intros w Hs Hd; [tauto|].
    cbn [deliver_all fold_left].
    destruct (deliver_has_current ev w Hs Hd) as [Hs' Hd'].
    exact (IH _ Hs' Hd'). }
  destruct H as [H1 H2]. split; [exact H1|]. split; [exact H2|]. split.
  - intros Hne. apply (has_current_selected _ H1).
    intros E. apply Hne. unfold source_ids. rewrite E. reflexivity.
  - intros Hne. apply (has_current_selected _ H2).
    intros E. apply Hne. unfold target_ids. rewrite E. reflexivity.
Qed.

(** The statement from the sample front-end as constructed, for a target
    that comes, a second one, and the first one going. *)
Lemma lists_with_rows_have_a_selection_witness :
  has_current (source_list demo_start) /\ has_current (dest_list demo_start)
  /\ In (get_target (deliver_all [Target_added "/dev/sdb"; Target_added "/dev/sdc";
                                  Target_removed "/dev/sdb"] demo_start))
        (target_ids (deliver_all [Target_added "/dev/sdb"; Target_added "/dev/sdc";
                                  Target_removed "/dev/sdb"] demo_start)).
Proof.
  assert (Hs : has_current (source_list demo_start)).
  { intros H. exfalso. apply H. reflexivity. }
  assert (Hd : has_current (dest_list demo_start)).
  { intros H. exfalso. apply H. reflexivity. }
  split; [exact Hs|]. split; [exact Hd|].
  apply (lists_with_rows_have_a_selection
           [Target_added "/dev/sdb"; Target_added "/dev/sdc";
            Target_removed "/dev/sdb"] demo_start Hs Hd).
  vm_compute. discriminate.
Defined.

(** ** Install, confirmed or declined *)

(** X11: with a source and a target selected, a confirmed [install] whose
    backend call returns hands exactly the two selected ids and the
    [allow_system_internal] flag to [backend.install], once, hides the main
    window, shows the progress dialog labelled "Starting up" and returns;
    the refresh timer and the lists are left alone.  A declined [install]
    shows the confirmation box and changes nothing else. *)
Theorem install_confirmed_passes_selection_to_backend :
  forall (w : state) (fault : option exn),
    get_source w <> "" -> get_target w <> "" ->
    let w' := state_of (install Yes None w) in
    install Yes None w = Return tt w'
    /\ calls (backend w')
       = (calls (backend w)
            ++ [Install (get_source w) (get_target w) (allow_system_internal w)])%list
    /\ dialogs w' = (dialogs w ++ [confirm_box])%list
    /\ window_hidden (mainWindow w') = true
    /\ (isHidden (progress_bar w') = false
        /\ pd_labelText (progress_bar w') = "Starting up"
        /\ pd_value (progress_bar w') = pd_value (progress_bar w))
    /\ (source_list w' = source_list w /\ dest_list w' = dest_list w
        /\ queue w' = queue w)
    /\ install No fault w = Return tt (show_dialog confirm_box w).
Proof.
  intros w fault Hs Ht. cbv zeta.
  apply str_truthy_true in Hs. apply str_truthy_true in Ht.
  unfold install. rewrite Hs, Ht. cbn [andb]. unfold_M. cbn.
  rewrite delete_timeout_timer. repeat split.
Qed.

(** The statement at the sample front-end, which has both selected. *)
Lemma install_confirmed_passes_selection_to_backend_witness :
  get_source demo_listed <> "" /\ get_target demo_listed <> ""
  /\ calls (backend demo_installing)
     = (calls (backend demo_listed)
          ++ [Install (get_source demo_listed) (get_target demo_listed)
                      (allow_system_internal demo_listed)])%list.
Proof.
  assert (Hs : get_source demo_listed <> "") by (vm_compute; discriminate).
  assert (Ht : get_target demo_listed <> "") by (vm_compute; discriminate).
  split; [exact Hs|]. split; [exact Ht|].
  exact (proj1 (proj2 (install_confirmed_passes_selection_to_backend
                         demo_listed None Hs Ht))).
Defined.

(** ** Cancelling *)

(** X12: [warning_dialog] hides the progress dialog and asks.  On No the
    progress dialog (range 0..100) is shown again, whatever its state was
    before, so the next progress value that is not negative is displayed
    (its integer part, capped at 100), and the backend is not told
    anything; on Yes [backend.cancel_install] is called once and the
    process ends with exit status 0, the progress dialog still hidden and
    the backend not shut down. *)
Theorem warning_dialog_cancels_only_on_yes :
  forall (w : state) (c : pynum),
    pd_minimum (progress_bar w) = 0 ->
    pd_maximum (progress_bar w) = 100 ->
    nonneg c ->
    (raised (warning_dialog No w) = None
     /\ isHidden (progress_bar (state_of (warning_dialog No w))) = false
     /\ backend (state_of (warning_dialog No w)) = backend w
     /\ dialogs (state_of (warning_dialog No w)) = (dialogs w ++ [quit_box])%list
     /\ raised (Body.progress c (state_of (warning_dialog No w))) = None
     /\ pd_value (progress_bar (state_of
           (Body.progress c (state_of (warning_dialog No w))))) = capped c)
    /\ (raised (warning_dialog Yes w) = Some (SystemExit 0)
        /\ calls (backend (state_of (warning_dialog Yes w)))
           = (calls (backend w) ++ [Cancel_install])%list
        /\ isHidden (progress_bar (state_of (warning_dialog Yes w))) = true
        /\ dialogs (state_of (warning_dialog Yes w)) = (dialogs w ++ [quit_box])%list)
    /\ quit w = Raise (SystemExit 0) (on_backend (call Cancel_install) w).
Proof.
  intros w c Hmin Hmax Hc. split; [|repeat split].
  split; [reflexivity|]. split; [reflexivity|]. split; [reflexivity|].
  split; [reflexivity|].
  destruct (progress_nonneg c (state_of (warning_dialog No w)))
    as (Hr & Hv & _); [reflexivity|exact Hmin|exact Hmax|exact Hc|].
  split; assumption.
Qed.

(** The statement at the sample installation, for the value 250 arriving
    after the user declined to quit. *)
Lemma warning_dialog_cancels_only_on_yes_witness :
  pd_value (progress_bar (state_of
     (Body.progress 250 (state_of (warning_dialog No demo_installing))))) = 100.
Proof.
  assert (Hc : nonneg (PyInt 250)) by (cbn; unfold Qle; cbn; lia).
  destruct (warning_dialog_cancels_only_on_yes demo_installing 250
              eq_refl eq_refl Hc) as ((_ & _ & _ & _ & _ & Hv) & _).
  exact Hv.
Defined.

(** ** A cancelled file dialog *)

Lemma with_item_current_item (u : nat) (f : QTreeWidgetItem -> QTreeWidgetItem)
    (tw : QTreeWidget) (item : QTreeWidgetItem) :
  (forall it, item_id (f it) = item_id it) ->
  currentItem tw = Some item ->
  exists item', currentItem (with_item u f tw) = Some item'.
Proof.
  intros Hf Hc. unfold currentItem in *. unfold with_item. cbn [current topLevelItems].
  destruct (current tw) as [v|]; [|discriminate].
  destruct (item_by_id_In v _ _ Hc) as [Hin Hid].
  destruct (item_by_id_found v
              (List.map (fun it => if Nat.eqb (item_id it) u then f it else it)
                        (topLevelItems tw))
              ((fun it => if Nat.eqb (item_id it) u then f it else it) item))
    as (item' & H & _).
  - exact (List.in_map
             (fun it => if Nat.eqb (item_id it) u then f it else it) _ item Hin).
  - cbn beta. destruct (Nat.eqb (item_id item) u); [rewrite Hf|]; exact Hid.
  - exists item'. exact H.
Qed.

Lemma find_app_Some {A} (p : A -> bool) (l l' : list A) (x : A) :
  List.find p l = Some x -> List.find p (l ++ l') = Some x.
Proof.
  induction l as [|y l IH]; cbn [List.find app]; [discriminate|].
  destruct (p y); [trivial|exact IH].
Qed.

Lemma new_item_current_item (d : string) (tw : QTreeWidget) (item : QTreeWidgetItem) :
  currentItem tw = Some item ->
  currentItem (snd (new_item d tw)) = Some item.
Proof.
  unfold currentItem, new_item, item_by_id. cbn [snd current topLevelItems].
  destruct (current tw) as [v|]; [|discriminate]. intros H.
  apply find_app_Some. exact H.
Qed.

Lemma add_source_keeps_selection (source : string) (info : Source)
    (item : QTreeWidgetItem) (w : state) :
  sources (backend w) !! source = Some info ->
  recently_added_image w = None ->
  currentItem (source_list w) = Some item ->
  current (source_list (state_of (add_source source w))) = current (source_list w)
  /\ recently_added_image (state_of (add_source source w)) = None.
Proof.
  intros Hs Hr Hc.
  pose proof (new_item_current_item source (source_list w) item Hc) as H1.
  destruct (with_item_current_item (next_item (source_list w))
              (fun it => setIcon "media-optical" (setText0 source it))
              (snd (new_item source (source_list w))) item
              ltac:(reflexivity) H1) as [item' H2].
  unfold add_source. unfold new_item in *. cbn [snd] in H2. unfold_M.
  cbn [backend on_source_list set_mainWindow]. rewrite Hs.
  cbn [recently_added_image on_source_list set_mainWindow]. rewrite Hr.
  cbn [state_of source_list on_source_list set_mainWindow mainWindow
       set_ui_source_list ui_source_list set_recently_added_image
       recently_added_image].
  split; [|exact Hr].
  unfold select_first_if_none. fold (source_list w). rewrite H2. reflexivity.
Qed.

(** X13: a cancelled file dialog (empty file name) forgets the name
    remembered for auto-selection and changes nothing else: no row, no
    selection, no backend call.  A source announced afterwards is then
    listed (its id joins the ids shown) without being selected: where a
    source was current, it stays current. *)
Theorem cancelled_file_dialog_forgets_pending_image :
  forall (source : string) (info : Source) (item : QTreeWidgetItem) (w : state),
    sources (backend w) !! source = Some info ->
    currentItem (source_list w) = Some item ->
    let w0 := state_of (add_file_source_dialog "" w) in
    add_file_source_dialog "" w = Return tt w0
    /\ recently_added_image w0 = None
    /\ mainWindow w0 = mainWindow w
    /\ backend w0 = backend w
    /\ current (source_list (state_of (add_source source w0)))
       = current (source_list w)
    /\ Permutation (source_ids (state_of (add_source source w0)))
                   (source :: source_ids w).
Proof.
  intros source info item w Hs Hc. cbv zeta.
  assert (E : add_file_source_dialog "" w
              = Return tt (set_recently_added_image None w)) by reflexivity.
  rewrite E. cbn [state_of].
  split; [reflexivity|]. split; [reflexivity|]. split; [reflexivity|].
  split; [reflexivity|]. split.
  - apply (add_source_keeps_selection source info item
             (set_recently_added_image None w)); [exact Hs|reflexivity|exact Hc].
  - rewrite (add_source_ids source (set_recently_added_image None w)).
    apply Permutation_sym, Permutation_cons_append.
Qed.

(** The statement at the sample front-end, whose one source is current and
    is announced once more. *)
Lemma cancelled_file_dialog_forgets_pending_image_witness :
  current (source_list (state_of (add_source "/home/u/a.iso"
             (state_of (add_file_source_dialog "" demo_listed)))))
  = current (source_list demo_listed).
Proof.
  assert (Hs : sources (backend demo_listed) !! "/home/u/a.iso"
               = Some {| src_device := "/home/u/a.iso";
                         src_label := " Ubuntu 14.04 ";
                         src_size := 1000; src_type := SOURCE_ISO |})
    by (vm_compute; reflexivity).
  assert (Hc : currentItem (source_list demo_listed)
               = Some (source_row 0 "/home/u/a.iso"
                         {| src_device := "/home/u/a.iso";
                            src_label := " Ubuntu 14.04 ";
                            src_size := 1000; src_type := SOURCE_ISO |}))
    by (vm_compute; reflexivity).
  exact (proj1 (proj2 (proj2 (proj2 (proj2
           (cancelled_file_dialog_forgets_pending_image _ _ _ demo_listed Hs Hc)))))).
Defined.

(** ** Bookkeeping of the queue *)

Lemma final_callback (c : closure) (acts : list action) (w : state) :
  final (Backend_calls c :: acts) w = final acts (state_of (callback c w)).
Proof.
  unfold final. cbn [run].
  destruct (run acts (state_of (callback c w))) as [[p e] o]. reflexivity.
Qed.

Lemma final_timer (res : StandardButton) (acts : list action) (w : state) :
  final (Timer_fires res :: acts) w
  = match queue_processor_timeout res w with
    | Return _ w' => final acts w'
    | Raise ex w' => Raise ex w'
    end.
Proof.
  unfold final. cbn [run].
  destruct (queue_processor_timeout res w) as [u w'|ex w']; [|reflexivity].
  destruct (run acts w') as [[p e] o]. reflexivity.
Qed.

Lemma callback_accounted (c : closure) (w : state) :
  accounted (queue w) -> accounted (queue (state_of (callback c w))).
Proof.
  unfold accounted. intros H. rewrite callback_puts.
  cbn [state_of queue set_queue put items unfinished_tasks].
  rewrite List.length_app, H. cbn [length]. lia.
Qed.

Lemma timer_fires_accounted (res : StandardButton) (w : state) :
  accounted (queue w) ->
  raised (queue_processor_timeout res w) = None ->
  accounted (queue (state_of (queue_processor_timeout res w))).
Proof.
  unfold accounted, queue_processor_timeout. intros H.
  destruct (isActive (queue_processor w)); [|intros _; exact H].
  unfold __timeout_callback, bind.
  destruct (items (queue w)) as [|c rest] eqn:Hq.
  { rewrite (test_func_empty res w Hq). cbn. intros _. rewrite Hq. exact H. }
  rewrite (test_func_cons res w c rest Hq).
  destruct (apply_closure_frame res c
              (set_queue {| items := rest;
                            unfinished_tasks := unfinished_tasks (queue w) |} w))
    as (Hqueue & _ & _).
  destruct (apply_closure res c _) as [v w1|e w1]; cbn [state_of raised] in *;
    [|discriminate].
  intros _. cbn [truthy]. unfold ret.
  cbn [state_of queue set_queue task_done items unfinished_tasks].
  rewrite Hqueue. cbn [queue set_queue items unfinished_tasks].
  rewrite H. reflexivity.
Qed.

(** X14: every closure put into the queue is counted as an unfinished task
    and [test_func] reports one task done for each closure it has run: as
    long as the process lives, the count of unfinished tasks equals the
    number of closures still queued, along any interleaving of callbacks
    and timer firings, so [task_done] is never called once too often. *)
Theorem unfinished_tasks_match_queue_length :
  forall (acts : list action) (w : state),
    accounted (queue w) ->
    raised (final acts w) = None ->
    accounted (queue (state_of (final acts w))).
Proof.
  intros acts. induction acts as [|[c|res] acts IH]; intros w Hacc Hlive.
  - exact Hacc.
  - rewrite final_callback in *. apply IH; [|exact Hlive].
    apply callback_accounted. exact Hacc.
  - rewrite final_timer in *.
    pose proof (timer_fires_accounted res w Hacc) as Hstep.
    destruct (queue_processor_timeout res w) as [u w'|ex w'];
      cbn [raised state_of] in *; [|discriminate].
    apply IH; [|exact Hlive]. apply Hstep. reflexivity.
Qed.

(** The statement from the sample front-end as constructed, for two
    callbacks and three firings. *)
Lemma unfinished_tasks_match_queue_length_witness :
  accounted (queue demo_start)
  /\ accounted (queue (state_of (final
       [Backend_calls (call_progress 10); Timer_fires Yes;
        Backend_calls (call_retry "busy"); Timer_fires No; Timer_fires No]
       demo_start))).
Proof.
  assert (Hacc : accounted (queue demo_start)) by reflexivity.
  split; [exact Hacc|].
  apply (unfinished_tasks_match_queue_length _ demo_start Hacc).
  vm_compute. reflexivity.
Defined.

(** ** A progress value on its way to the dialog *)

(** X15: a progress value reported by the backend thread does not touch
    the dialog when it is reported; with the queue empty before, the queue
    processor running and the dialog (range 0..100) not hidden, the next
    firing of the timer shows the integer part of a value that is not
    negative, capped at 100, raises nothing and leaves the queue empty
    again. *)
Theorem progress_reaches_dialog_on_next_firing :
  forall (c : pynum) (res : StandardButton) (w : state),
    items (queue w) = [] ->
    isActive (queue_processor w) = true ->
    isHidden (progress_bar w) = false ->
    pd_minimum (progress_bar w) = 0 ->
    pd_maximum (progress_bar w) = 100 ->
    nonneg c ->
    let o := final [Backend_calls (call_progress c); Timer_fires res] w in
    progress_bar (state_of (progress c w)) = progress_bar w
    /\ raised o = None
    /\ pd_value (progress_bar (state_of o)) = capped c
    /\ items (queue (state_of o)) = []
    /\ executed [Backend_calls (call_progress c); Timer_fires res] w
       = [call_progress c].
Proof.
  intros c res w Hq Hact Hvis Hmin Hmax Hc. cbv zeta.
  split; [reflexivity|].
  destruct (progress_nonneg c w Hvis Hmin Hmax Hc) as (Hr & Hv & _).
  unfold executed. rewrite final_callback, final_timer. cbn [run].
  unfold executed_by_timer.
  rewrite callback_puts. cbn [state_of queue_processor set_queue queue put items].
  rewrite Hact, Hq. cbn [app].
  rewrite (timer_fires_head res _ (call_progress c) []);
    [|exact Hact|cbn [queue set_queue put items]; rewrite Hq; reflexivity].
  rewrite set_queue_set_queue, apply_closure_set_queue. cbn [apply_closure].
  destruct (Body.progress c w) as [v wp|e wp]; cbn [raised state_of] in *;
    [|discriminate].
  cbn. repeat split. exact Hv.
Qed.

(** The statement at the sample installation, for the value 250. *)
Lemma progress_reaches_dialog_on_next_firing_witness :
  pd_value (progress_bar (state_of
     (final [Backend_calls (call_progress 250); Timer_fires Yes] demo_installing)))
  = 100.
Proof.
  assert (Hc : nonneg (PyInt 250)) by (cbn; unfold Qle; cbn; lia).
  exact (proj1 (proj2 (proj2 (progress_reaches_dialog_on_next_firing
           250 Yes demo_installing eq_refl eq_refl eq_refl eq_refl eq_refl Hc)))).
Defined.

(** ** Missing keys in [update_target] *)

(** X16: [update_target] for an id that the backend's targets mapping does
    not have raises [KeyError] on that id and changes nothing, and so does
    the slot of the destinations list for a row carrying such an id; with
    the target known and a current source that the sources mapping does
    not have, it raises [KeyError] on the source id, again before touching
    the start button or the status message.  The slot does nothing when
    there is no current row. *)
Theorem update_target_missing_key_changes_nothing :
  forall (udi : string) (w : state),
    targets (backend w) !! udi = None ->
    update_target udi w = Raise (KeyError udi) w
    /\ (forall item, user_data item = udi ->
          dest_selection_changed (Some item) w = Raise (KeyError udi) w)
    /\ dest_selection_changed None w = Return tt w
    /\ (forall known target source,
          targets (backend w) !! known = Some target ->
          get_current_source (backend w) = Some source ->
          source <> "" ->
          sources (backend w) !! source = None ->
          update_target known w = Raise (KeyError source) w).
Proof.
  intros udi w Hu.
  assert (E : update_target udi w = Raise (KeyError udi) w).
  { unfold update_target. unfold_M. rewrite Hu. reflexivity. }
  split; [exact E|]. split; [|split; [reflexivity|]].
  - intros item <-. exact E.
  - intros known target source Ht Hc Hne Hs.
    unfold update_target. unfold_M. rewrite Ht, Hc.
    apply str_truthy_true in Hne. rewrite Hne. cbn [negb]. rewrite Hs.
    reflexivity.
Qed.

(** The statement at the sample front-end, for a device its backend lacks. *)
Lemma update_target_missing_key_changes_nothing_witness :
  targets (backend demo_listed) !! "/dev/sdz" = None
  /\ update_target "/dev/sdz" demo_listed = Raise (KeyError "/dev/sdz") demo_listed.
Proof.
  assert (Hu : targets (backend demo_listed) !! "/dev/sdz" = None)
    by (vm_compute; reflexivity).
  split; [exact Hu|].
  exact (proj1 (update_target_missing_key_changes_nothing "/dev/sdz" demo_listed Hu)).
Defined.

(** ** A closure that ends the process *)

Lemma fail_outcome (message : option string) (w : state) :
  __fail message w
  = Raise (SystemExit 1)
      (show_dialog (Critical (failure_text message)) (on_progress_bar pd_hide w)).
Proof.
  unfold __fail, failure_text. unfold_M. cbn.
  destruct message as [m|]; [destruct (str_truthy m)|]; reflexivity.
Qed.

(** X17: when the queue processor fires with a [failure] at the head of
    the queue, the process ends with exit status 1 after the error box; the
    exception leaves [test_func] before [task_done], so the closure stays
    counted as unfinished, the closures behind it stay queued and are not
    run, and the timer is not stopped. *)
Theorem queued_failure_ends_process_before_task_done :
  forall (message : option string) (rest : list closure)
         (res : StandardButton) (w : state),
    isActive (queue_processor w) = true ->
    items (queue w) = call_failure message :: rest ->
    let o := queue_processor_timeout res w in
    raised o = Some (SystemExit 1)
    /\ items (queue (state_of o)) = rest
    /\ unfinished_tasks (queue (state_of o)) = unfinished_tasks (queue w)
    /\ dialogs (state_of o) = (dialogs w ++ [Critical (failure_text message)])%list
    /\ queue_processor (state_of o) = queue_processor w
    /\ forall acts,
         executed (Timer_fires res :: acts) w = [call_failure message]
         /\ raised (final (Timer_fires res :: acts) w) = Some (SystemExit 1).
Proof.
  intros message rest res w Hact Hq. cbv zeta.
  assert (E : queue_processor_timeout res w
              = Raise (SystemExit 1)
                  (show_dialog (Critical (failure_text message))
                     (on_progress_bar pd_hide
                        (set_queue {| items := rest;
                                      unfinished_tasks := unfinished_tasks (queue w) |}
                                   w)))).
  { unfold queue_processor_timeout. rewrite Hact.
    unfold __timeout_callback, bind.
    rewrite (test_func_cons res w (call_failure message) rest Hq).
    cbn [apply_closure]. unfold Body.failure, bind. rewrite fail_outcome.
    reflexivity. }
  rewrite E. cbn [raised state_of]. repeat split.
  - unfold executed. cbn [run]. rewrite E. unfold executed_by_timer.
    rewrite Hact, Hq. reflexivity.
  - rewrite final_timer, E. reflexivity.
Qed.

(** The statement at the sample installation, a progress value queued
    behind the failure. *)
Lemma queued_failure_ends_process_before_task_done_witness :
  raised (queue_processor_timeout Yes
            (state_of (progress 80 (state_of (failure (Some "No space left")
                                                demo_installing)))))
  = Some (SystemExit 1).
Proof.
  exact (proj1 (queued_failure_ends_process_before_task_done
                  (Some "No space left") [call_progress 80] Yes
                  (state_of (progress 80 (state_of (failure (Some "No space left")
                                                      demo_installing))))
                  eq_refl eq_refl)).
Defined.

(** ** Rows added while a row is current *)

Lemma add_target_keeps_selection (target : string) (item : QTreeWidgetItem)
    (w : state) :
  currentItem (dest_list w) = Some item ->
  current (dest_list (state_of (add_target target w))) = current (dest_list w).
Proof.
  intros Hc.
  pose proof (new_item_current_item target (dest_list w) item Hc) as H1.
  destruct (with_item_current_item (next_item (dest_list w))
              (fun it => setIcon "drive-removable-media-usb-pendrive"
                           (setText0 target it))
              (snd (new_item target (dest_list w))) item
              ltac:(reflexivity) H1) as [item' H2].
  unfold add_target. unfold new_item in *. cbn [snd] in H2. unfold_M.
  cbn [backend on_dest_list set_mainWindow].
  destruct (targets (backend w) !! target) as [dev|];
    cbn [state_of dest_list on_dest_list set_mainWindow mainWindow
         set_ui_dest_list ui_dest_list with_item current];
    unfold select_first_if_none; fold (dest_list w); rewrite H2; reflexivity.
Qed.

Lemma add_source_unknown_keeps_selection (source : string)
    (item : QTreeWidgetItem) (w : state) :
  sources (backend w) !! source = None ->
  currentItem (source_list w) = Some item ->
  current (source_list (state_of (add_source source w))) = current (source_list w).
Proof.
  intros Hs Hc.
  pose proof (new_item_current_item source (source_list w) item Hc) as H1.
  destruct (with_item_current_item (next_item (source_list w))
              (fun it => setIcon "media-optical" (setText0 source it))
              (snd (new_item source (source_list w))) item
              ltac:(reflexivity) H1) as [item' H2].
  unfold add_source. unfold new_item in *. cbn [snd] in H2. unfold_M.
  cbn [backend on_source_list set_mainWindow]. rewrite Hs.
  cbn [state_of source_list on_source_list set_mainWindow mainWindow
       set_ui_source_list ui_source_list].
  unfold select_first_if_none. fold (source_list w). rewrite H2. reflexivity.
Qed.

(** X6: while a row of the destinations list is current, [add_target] gives
    the list one more row, the row of the new item carrying the target's
    id, and keeps the ids that were shown, the selection, the sources list
    and the backend.  When the backend's targets mapping has the id, the
    row shows "vendor model (device)", the label and the capacity; when it
    does not, the method stops with [KeyError] on that id and the row
    stays, showing the bare id. *)
Theorem add_target_adds_row_even_for_unknown_id :
  forall (target : string) (item : QTreeWidgetItem) (w : state),
    currentItem (dest_list w) = Some item ->
    let w' := state_of (add_target target w) in
    exists row,
      In row (topLevelItems (dest_list w'))
      /\ item_id row = next_item (dest_list w)
      /\ user_data row = target
      /\ Permutation (target_ids w') (target :: target_ids w)
      /\ current (dest_list w') = current (dest_list w)
      /\ backend w' = backend w
      /\ source_list w' = source_list w
      /\ (forall dev, targets (backend w) !! target = Some dev ->
            add_target target w = Return tt w'
            /\ text0 row = (tgt_vendor dev +:+ " " +:+ tgt_model dev
                            +:+ " (" +:+ tgt_device dev +:+ ")")
            /\ text1 row = tgt_label dev
            /\ text2 row = Some (tgt_capacity dev))
      /\ (targets (backend w) !! target = None ->
            add_target target w = Raise (KeyError target) w'
            /\ text0 row = target /\ text1 row = "" /\ text2 row = None).
Proof.
  intros target item w Hc. cbv zeta.
  destruct (add_target_outcome target w) as (rows & row & Hi & Hids & Hb & Hs & Hm).
  exists row.
  split; [rewrite Hi; apply List.in_or_app; right; left; reflexivity|].
  assert (Hperm : Permutation (target_ids (state_of (add_target target w)))
                              (target :: target_ids w)).
  { rewrite add_target_ids. apply Permutation_sym, Permutation_cons_append. }
  pose proof (add_target_keeps_selection target item w Hc) as Hcur.
  destruct (targets (backend w) !! target) as [dev|]; destruct Hm as [Hr ->].
  - split; [reflexivity|]. split; [reflexivity|]. split; [exact Hperm|].
    split; [exact Hcur|]. split; [exact Hb|]. split; [exact Hs|]. split.
    + intros dev' [= <-]. split; [exact Hr|]. repeat split.
    + discriminate.
  - split; [reflexivity|]. split; [reflexivity|]. split; [exact Hperm|].
    split; [exact Hcur|]. split; [exact Hb|]. split; [exact Hs|]. split.
    + discriminate.
    + intros _. split; [exact Hr|]. repeat split.
Qed.

(** The statement at the sample front-end, whose one target is current,
    for a device its backend lacks. *)
Lemma add_target_adds_row_even_for_unknown_id_witness :
  raised (add_target "/dev/sdz" demo_listed) = Some (KeyError "/dev/sdz")
  /\ Permutation (target_ids (state_of (add_target "/dev/sdz" demo_listed)))
                 ("/dev/sdz" :: target_ids demo_listed).
Proof.
  assert (Hc : currentItem (dest_list demo_listed)
               = Some (target_row 0 "/dev/sdb"
                         {| tgt_vendor := "Acme"; tgt_model := "Stick";
                            tgt_device := "/dev/sdb"; tgt_label := "DATA";
                            tgt_capacity := 8000; tgt_status := CAN_USE |}))
    by (vm_compute; reflexivity).
  assert (Hu : targets (backend demo_listed) !! "/dev/sdz" = None)
    by (vm_compute; reflexivity).
  destruct (add_target_adds_row_even_for_unknown_id "/dev/sdz" _ demo_listed Hc)
    as (row & _ & _ & _ & Hperm & _ & _ & _ & _ & Hunknown).
  split; [|exact Hperm].
  rewrite (proj1 (Hunknown Hu)). reflexivity.
Defined.

(** X7: while a row of the sources list is current, [add_source] for a
    source id the backend's sources mapping does not have stops with
    [KeyError] on that id after the row was added: the row stays, showing
    the bare id and no label or size, the selection and the name remembered
    by the file dialog are kept, and the backend and the destinations list
    are untouched. *)
Theorem add_source_unknown_id_leaves_bare_row :
  forall (source : string) (item : QTreeWidgetItem) (w : state),
    sources (backend w) !! source = None ->
    currentItem (source_list w) = Some item ->
    let w' := state_of (add_source source w) in
    add_source source w = Raise (KeyError source) w'
    /\ (exists row,
          In row (topLevelItems (source_list w'))
          /\ item_id row = next_item (source_list w)
          /\ user_data row = source /\ text0 row = source
          /\ text1 row = "" /\ text2 row = None)
    /\ Permutation (source_ids w') (source :: source_ids w)
    /\ current (source_list w') = current (source_list w)
    /\ recently_added_image w' = recently_added_image w
    /\ backend w' = backend w
    /\ dest_list w' = dest_list w.
Proof.
  intros source item w Hs Hc. cbv zeta.
  destruct (add_source_unknown source w Hs) as (Hr & rows & Hi & Hids & Hrec & Hb & Hd).
  split; [exact Hr|]. split.
  - exists (bare_row (next_item (source_list w)) source "media-optical").
    split; [rewrite Hi; apply List.in_or_app; right; left; reflexivity|].
    repeat split.
  - split; [rewrite add_source_ids; apply Permutation_sym, Permutation_cons_append|].
    split; [exact (add_source_unknown_keeps_selection source item w Hs Hc)|].
    repeat split; assumption.
Qed.

(** The statement at the sample front-end, whose one source is current,
    for an id its backend lacks. *)
Lemma add_source_unknown_id_leaves_bare_row_witness :
  raised (add_source "/tmp/gone.iso" demo_listed) = Some (KeyError "/tmp/gone.iso")
  /\ current (source_list (state_of (add_source "/tmp/gone.iso" demo_listed)))
     = current (source_list demo_listed).
Proof.
  assert (Hs : sources (backend demo_listed) !! "/tmp/gone.iso" = None)
    by (vm_compute; reflexivity).
  assert (Hc : currentItem (source_list demo_listed)
               = Some (source_row 0 "/home/u/a.iso"
                         {| src_device := "/home/u/a.iso";
                            src_label := " Ubuntu 14.04 ";
                            src_size := 1000; src_type := SOURCE_ISO |}))
    by (vm_compute; reflexivity).
  destruct (add_source_unknown_id_leaves_bare_row "/tmp/gone.iso" _ demo_listed Hs Hc)
    as (Hr & _ & _ & Hcur & _).
  split; [rewrite Hr; reflexivity|exact Hcur].
Defined.
